(** * Inventory, characters and crafting of [task2.py]

    A shallow embedding of the item hierarchy, the weight-capped
    [Inventory], the [Character] variants and [CraftingSystem.craft_item];
    then the vocabulary and the scenarios of the properties; then the
    properties of the specification themselves.

    Conventions of the embedding.
    - Python objects used as dictionary keys hash and compare by identity
      ([Item] defines neither [__eq__] nor [__hash__]).  Every item carries
      its object identity [oid]; two keys are the same key exactly when
      their [oid]s agree.  Items are never mutated after construction.
    - A [dict] is an association list in insertion order: updating a key
      keeps its position, a new key goes last, [del] drops the entry.
    - Methods that mutate [self] return the new state next to their result.
    - [debug_log] only prints; it is left out. *)

From Stdlib Require Import ZArith QArith List String Ascii Bool Lia Lqa Permutation.
From Stdlib Require Import Floats.PrimFloat Floats.SpecFloat Floats.FloatOps.
Import ListNotations.

Local Open Scope string_scope.
Local Open Scope list_scope.
Local Open Scope Z_scope.

(** ** Numbers

    Weights are whatever Python number the caller passes (the annotations
    say [float]); the code only needs the four operations below on them.
    [of_int] is the conversion Python applies to an [int] operand of a mixed
    operation, [lit] the value of a decimal literal, [gt] the [>] test. *)

Class Number (W : Type) : Type := {
  of_int : Z -> W;
  lit : Q -> W;
  add : W -> W -> W;
  mul : W -> W -> W;
  gt : W -> W -> bool
}.

(** Exact arithmetic: Python [int] and [fractions.Fraction] weights, and
    [float] weights for as long as no operation rounds. *)
#[export] Instance exact : Number Q := {
  of_int := inject_Z;
  lit := fun q => q;
  add := Qplus;
  mul := Qmult;
  gt := fun a b => negb (Qle_bool a b)
}.

(** IEEE 754 binary64, the arithmetic of Python's [float].  An [int] is
    converted with round-to-nearest-even; a literal [n/d] is the correctly
    rounded quotient.  (Python raises [OverflowError] for an [int] beyond the
    range of [float]; here the conversion yields an infinity instead.) *)
Definition Z2float (z : Z) : float :=
  SF2Prim (binary_normalize prec emax z 0 false).

#[export] Instance binary64 : Number float := {
  of_int := Z2float;
  lit := fun q => PrimFloat.div (Z2float (Qnum q)) (Z2float (Zpos (Qden q)));
  add := PrimFloat.add;
  mul := PrimFloat.mul;
  gt := fun a b => PrimFloat.ltb b a
}.

(** ** Exceptions *)

Inductive exn : Type := AttributeError | KeyError.

Inductive outcome (A : Type) : Type :=
| Return (a : A)
| Raise (e : exn).
Arguments Return {A} a.
Arguments Raise {A} e.

Section Game.

Context {W : Type} `{Number W}.

(** ** Items *)

Inductive ItemType : Type := WEAPON | ARMOR | CONSUMABLE | MATERIAL.

(** Attributes set by [Item.__init__], with the identity of the object. *)
Record ItemBase : Type := {
  oid : positive;
  name : string;
  weight : W;
  cost : Z
}.

Record Weapon : Type := {
  weapon_base :> ItemBase;
  damage : Z;
  weapon_class : string
}.

Record Armor : Type := {
  armor_base :> ItemBase;
  defense : Z
}.

Record Potion : Type := {
  potion_base :> ItemBase;
  effect : string;
  value : Z
}.

Record Material : Type := {
  material_base :> ItemBase;
  material_type : string
}.

Inductive Item : Type :=
| AWeapon (w : Weapon)
| AnArmor (a : Armor)
| APotion (p : Potion)
| AMaterial (m : Material).

Definition item_base (item : Item) : ItemBase :=
  match item with
  | AWeapon w => w
  | AnArmor a => a
  | APotion p => p
  | AMaterial m => m
  end.
Coercion item_base : Item >-> ItemBase.

Definition item_type (item : Item) : ItemType :=
  match item with
  | AWeapon _ => WEAPON
  | AnArmor _ => ARMOR
  | APotion _ => CONSUMABLE
  | AMaterial _ => MATERIAL
  end.

(** [ItemType.value] and [Item.__repr__]. *)
Definition ItemType_value (t : ItemType) : string :=
  match t with
  | WEAPON => "weapon"
  | ARMOR => "armor"
  | CONSUMABLE => "consumable"
  | MATERIAL => "material"
  end.

Definition repr (item : Item) : string :=
  name item ++ " (" ++ ItemType_value (item_type item) ++ ")".

(** [a is b] *)
Definition same_object (a b : Item) : bool := Pos.eqb (oid a) (oid b).

(** ** [Dict[Item, int]] *)

Definition Dict : Type := list (Item * Z).

(** [d.get(k)]; [k in d] is [dict_get d k <> None]. *)
Fixpoint dict_get (d : Dict) (k : Item) : option Z :=
  match d with
  | [] => None
  | (k', v) :: d' => if same_object k' k then Some v else dict_get d' k
  end.

(** [d[k] = v] *)
Fixpoint dict_set (d : Dict) (k : Item) (v : Z) : Dict :=
  match d with
  | [] => [(k, v)]
  | (k', v') :: d' =>
      if same_object k' k then (k', v) :: d' else (k', v') :: dict_set d' k v
  end.

(** [del d[k]] *)
Fixpoint dict_del (d : Dict) (k : Item) : Dict :=
  match d with
  | [] => []
  | (k', v') :: d' =>
      if same_object k' k then d' else (k', v') :: dict_del d' k
  end.

(** ** Inventory *)

Record Inventory : Type := {
  max_weight : W;
  items : Dict
}.

(** [Inventory(max_weight)] *)
Definition new_inventory (max_weight : W) : Inventory :=
  {| max_weight := max_weight; items := [] |}.

Definition with_items (self : Inventory) (d : Dict) : Inventory :=
  {| max_weight := max_weight self; items := d |}.

(** [sum(item.weight * quantity for item, quantity in items.items())]:
    [sum] starts from the int [0] and adds from left to right.  (From
    CPython 3.12 on, [sum] carries a compensation term for floats; the
    binary64 scenarios below round to the same values with it.) *)
Definition calculate_weight (items : Dict) : W :=
  fold_left
    (fun acc (entry : Item * Z) => add acc (mul (weight (fst entry)) (of_int (snd entry))))
    items (of_int 0).

Definition add_item (self : Inventory) (item : Item) (quantity : Z)
  : Inventory * bool :=
  let current_weight := calculate_weight (items self) in
  let new_weight := add current_weight (mul (weight item) (of_int quantity)) in
  if gt new_weight (max_weight self) then (self, false)
  else
    match dict_get (items self) item with
    | Some q => (with_items self (dict_set (items self) item (q + quantity)), true)
    | None => (with_items self (dict_set (items self) item quantity), true)
    end.

Definition remove_item (self : Inventory) (item : Item) (quantity : Z)
  : Inventory * bool :=
  match dict_get (items self) item with
  | None => (self, false)
  | Some q =>
      if q <? quantity then (self, false)
      else
        let d := dict_set (items self) item (q - quantity) in
        if q - quantity =? 0
        then (with_items self (dict_del d item), true)
        else (with_items self d, true)
  end.

(** First key, in insertion order, whose name is [name]. *)
Fixpoint find_by_name (d : Dict) (n : string) : option Item :=
  match d with
  | [] => None
  | (item, _) :: d' => if String.eqb (name item) n then Some item else find_by_name d' n
  end.

Definition get_item_by_name (self : Inventory) (n : string) : option Item :=
  find_by_name (items self) n.

(** Starter items are fresh objects on every call: [fresh] is the first
    unused object identity, and the next unused one is returned. *)
Definition create_starter_inventory (fresh : positive) : Inventory * positive :=
  let inventory := new_inventory (lit (50 # 1)) in
  let water := APotion
    {| potion_base := {| oid := fresh; name := "Water"; weight := lit (5 # 10); cost := 5 |};
       effect := "heal"; value := 10 |} in
  let bread := APotion
    {| potion_base := {| oid := fresh + 1; name := "Bread"; weight := lit (3 # 10); cost := 3 |};
       effect := "heal"; value := 15 |} in
  let gold := AMaterial
    {| material_base := {| oid := fresh + 2; name := "Gold Coins"; weight := lit (1 # 10); cost := 1 |};
       material_type := "currency" |} in
  let inventory := fst (add_item inventory water 2) in
  let inventory := fst (add_item inventory bread 3) in
  let inventory := fst (add_item inventory gold 50) in
  (inventory, (fresh + 3)%positive).

(** ** Characters *)

Inductive CharacterClass : Type := Warrior | Mage | Archer.

(** The [equipment] dictionary has the two keys ["weapon"] and ["armor"]
    from construction on; no code adds or deletes a key. *)
Record Equipment : Type := {
  weapon_slot : option Item;
  armor_slot : option Item
}.

Record Character : Type := {
  char_class : CharacterClass;
  char_name : string;
  health : Z;
  max_health : Z;
  inventory : Inventory;
  equipment : Equipment;
  level : Z
}.

Definition with_inventory (self : Character) (inv : Inventory) : Character :=
  {| char_class := char_class self; char_name := char_name self;
     health := health self; max_health := max_health self;
     inventory := inv; equipment := equipment self; level := level self |}.

Definition with_health (self : Character) (h : Z) : Character :=
  {| char_class := char_class self; char_name := char_name self;
     health := h; max_health := max_health self;
     inventory := inventory self; equipment := equipment self; level := level self |}.

Definition with_equipment (self : Character) (e : Equipment) : Character :=
  {| char_class := char_class self; char_name := char_name self;
     health := health self; max_health := max_health self;
     inventory := inventory self; equipment := e; level := level self |}.

(** [Character.__init__(name, health, max_weight)] *)
Definition Character_init (c : CharacterClass) (n : string) (h : Z) (w : W) : Character :=
  {| char_class := c; char_name := n; health := h; max_health := h;
     inventory := new_inventory w;
     equipment := {| weapon_slot := None; armor_slot := None |};
     level := 1 |}.

(** [Warrior(name)], [Mage(name)], [Archer(name)] *)
Definition new_character (c : CharacterClass) (n : string) : Character :=
  match c with
  | Warrior => Character_init Warrior n 150 (lit (80 # 1))
  | Mage => Character_init Mage n 80 (lit (40 # 1))
  | Archer => Character_init Archer n 100 (lit (60 # 1))
  end.

(** [self.allowed_weapons], assigned once by the constructor of the class. *)
Definition allowed_weapons (c : CharacterClass) : list string :=
  match c with
  | Warrior => ["sword"; "axe"; "mace"]
  | Mage => ["staff"; "wand"]
  | Archer => ["bow"; "crossbow"]
  end.

(** [weapon.weapon_class in self.allowed_weapons] *)
Definition can_equip_weapon (self : Character) (weapon : Weapon) : bool :=
  existsb (fun c => String.eqb c (weapon_class weapon))
          (allowed_weapons (char_class self)).

(** [get_item_bonus] of the three classes; [item.weight < 10] is the test
    [10 > item.weight]. *)
Definition get_item_bonus (self : Character) (item : Item) : W :=
  match char_class self, item with
  | Warrior, AWeapon _ => lit (12 # 10)
  | Mage, APotion _ => lit (15 # 10)
  | Archer, AnArmor a =>
      if gt (of_int 10) (weight a) then lit (13 # 10) else lit (1 # 1)
  | _, _ => lit (1 # 1)
  end.

Definition pick_up_item (self : Character) (item : Item) (quantity : Z)
  : Character * bool :=
  let (inv, ok) := add_item (inventory self) item quantity in
  (with_inventory self inv, ok).

(** *** [use] of the four item classes *)

Definition Weapon_use (self : Weapon) (character : Character) : Character * bool :=
  if can_equip_weapon character self
  then (with_equipment character
          {| weapon_slot := Some (AWeapon self);
             armor_slot := armor_slot (equipment character) |}, true)
  else (character, false).

Definition Armor_use (self : Armor) (character : Character) : Character * bool :=
  (with_equipment character
     {| weapon_slot := weapon_slot (equipment character);
        armor_slot := Some (AnArmor self) |}, true).

Definition Potion_use (self : Potion) (character : Character) : Character * bool :=
  let character :=
    if String.eqb (effect self) "heal"
    then with_health character
           (Z.min (max_health character) (health character + value self))
    else character in
  (with_inventory character
     (fst (remove_item (inventory character) (APotion self) 1)), true).

Definition Material_use (self : Material) (character : Character) : Character * bool :=
  (character, false).

(** [item.use(character)] *)
Definition use (item : Item) (character : Character) : Character * bool :=
  match item with
  | AWeapon w => Weapon_use w character
  | AnArmor a => Armor_use a character
  | APotion p => Potion_use p character
  | AMaterial m => Material_use m character
  end.

Definition use_item (self : Character) (item_name : string) : Character * bool :=
  match get_item_by_name (inventory self) item_name with
  | None => (self, false)
  | Some item => use item self
  end.

(** [str.lower] on ASCII text; other bytes are left as they are.  (No
    character outside ASCII lower-cases to a letter of ["warrior"], ["mage"]
    or ["archer"], so the lookup in [classes] is decided as in Python.) *)
Definition lower_char (c : ascii) : ascii :=
  let n := nat_of_ascii c in
  if ((65 <=? n) && (n <=? 90))%nat then ascii_of_nat (n + 32) else c.

Fixpoint lower (s : string) : string :=
  match s with
  | EmptyString => EmptyString
  | String c s' => String (lower_char c) (lower s')
  end.

(** The [classes] dictionary of the factory. *)
Definition classes (key : string) : option CharacterClass :=
  if String.eqb key "warrior" then Some Warrior
  else if String.eqb key "mage" then Some Mage
  else if String.eqb key "archer" then Some Archer
  else None.

Definition create_character (character_class n : string) (fresh : positive)
  : option Character * positive :=
  match classes (lower character_class) with
  | None => (None, fresh)
  | Some char_class =>
      let character := new_character char_class n in
      let (starter, fresh') := create_starter_inventory fresh in
      (Some (with_inventory character starter), fresh')
  end.

(** ** Crafting *)

(** [ingredients] is a [Dict[str, int]], listed in insertion order. *)
Record Recipe : Type := {
  recipe_name : string;
  required_level : Z;
  ingredients : list (string * Z);
  result : Item
}.

(** First loop of [craft_item]: [Return false] stands for the early
    [return None].  [items[item]] raises [KeyError] on a missing key. *)
Fixpoint check_ingredients (inv : Inventory) (ings : list (string * Z))
  : outcome bool :=
  match ings with
  | [] => Return true
  | (ingredient_name, required_quantity) :: rest =>
      match get_item_by_name inv ingredient_name with
      | None => Return false
      | Some item =>
          match dict_get (items inv) item with
          | None => Raise KeyError
          | Some stored =>
              if stored <? required_quantity then Return false
              else check_ingredients inv rest
          end
      end
  end.

(** Second loop of [craft_item].  [remove_item(None, _)] would read
    [None.name] and raise [AttributeError]. *)
Fixpoint consume_ingredients (inv : Inventory) (ings : list (string * Z))
  : outcome Inventory :=
  match ings with
  | [] => Return inv
  | (ingredient_name, required_quantity) :: rest =>
      match get_item_by_name inv ingredient_name with
      | None => Raise AttributeError
      | Some item =>
          consume_ingredients (fst (remove_item inv item required_quantity)) rest
      end
  end.

Definition craft_item (recipe : Recipe) (character : Character)
  : outcome (Character * option Item) :=
  if level character <? required_level recipe then Return (character, None)
  else
    match check_ingredients (inventory character) (ingredients recipe) with
    | Raise e => Raise e
    | Return false => Return (character, None)
    | Return true =>
        match consume_ingredients (inventory character) (ingredients recipe) with
        | Raise e => Raise e
        | Return inv =>
            let inv := fst (add_item inv (result recipe) 1) in
            Return (with_inventory character inv, Some (result recipe))
        end
    end.

(** [available_recipes(character_level)]; [_recipes] is the class attribute
    the method reads: [[]] before [initialize_recipes], its list after. *)
Definition available_recipes (_recipes : list Recipe) (character_level : Z)
  : list Recipe :=
  filter (fun recipe => required_level recipe <=? character_level) _recipes.

(** [dismantle_item(item)]: the [materials] dictionary, in insertion order. *)
Definition dismantle_item (item : Item) : list (string * Z) :=
  match item with
  | AWeapon w =>
      if existsb (fun c => String.eqb c (weapon_class w)) ["sword"; "axe"]
      then [("Iron Ore", 2); ("Wood", 1)]
      else if existsb (fun c => String.eqb c (weapon_class w)) ["staff"; "wand"]
      then [("Wood", 2)]
      else []
  | AnArmor _ => [("Leather", 2); ("Thread", 1)]
  | _ => []
  end.

(** The recipe list [initialize_recipes] stores in [_recipes]; the three
    result items are fresh objects. *)
Definition initialize_recipes (fresh : positive) : list Recipe * positive :=
  let iron_sword := AWeapon
    {| weapon_base := {| oid := fresh; name := "Iron Sword"; weight := lit (5 # 1); cost := 100 |};
       damage := 25; weapon_class := "sword" |} in
  let wooden_staff := AWeapon
    {| weapon_base := {| oid := fresh + 1; name := "Wooden Staff"; weight := lit (3 # 1); cost := 80 |};
       damage := 20; weapon_class := "staff" |} in
  let leather_armor := AnArmor
    {| armor_base := {| oid := fresh + 2; name := "Leather Armor"; weight := lit (8 # 1); cost := 120 |};
       defense := 15 |} in
  ([ {| recipe_name := "Iron Sword"; required_level := 1;
        ingredients := [("Iron Ore", 3); ("Wood", 1)]; result := iron_sword |};
     {| recipe_name := "Wooden Staff"; required_level := 1;
        ingredients := [("Wood", 2); ("Crystal", 1)]; result := wooden_staff |};
     {| recipe_name := "Leather Armor"; required_level := 2;
        ingredients := [("Leather", 4); ("Thread", 2)]; result := leather_armor |} ],
   (fresh + 3)%positive).

End Game.

(** * Vocabulary of the properties *)

Section Vocabulary.

Context {W : Type} `{Number W}.
Implicit Types (inv : @Inventory W) (item : @Item W) (d : @Dict W).

(** The quantity stored for [item], [0] without an entry. *)
Definition stored d item : Z :=
  match dict_get d item with
  | Some q => q
  | None => 0
  end.

(** [quantity_of inv item]: the number of units held, [0] without an entry. *)
Definition quantity_of inv item : Z :=
  match dict_get (items inv) item with
  | Some q => q
  | None => 0
  end.

(** The representation invariant of a [dict]: no object is a key twice. *)
Definition dict_wf d : Prop :=
  NoDup (map (fun entry : Item * Z => oid (fst entry)) d).

(** An object identity denotes one object: a key of [d] that is the same
    object as [item] is [item] itself. *)
Definition known d item : Prop :=
  forall k v, In (k, v) d -> same_object k item = true -> k = item.

(** A call of [add_item] or [remove_item], and the inventory a sequence of
    calls leaves behind when it starts from [Inventory(max_weight)]. *)
Inductive call : Type :=
| add_call (item : @Item W) (quantity : Z)
| remove_call (item : @Item W) (quantity : Z).

Definition perform inv (c : call) : Inventory :=
  match c with
  | add_call item quantity => fst (add_item inv item quantity)
  | remove_call item quantity => fst (remove_item inv item quantity)
  end.

Definition after_calls (max_weight : W) (calls : list call) : Inventory :=
  fold_left perform calls (new_inventory max_weight).

Definition positive_entries d : Prop :=
  Forall (fun entry : Item * Z => 1 <= snd entry) d.

(** The item a call is about. *)
Definition call_item (c : call) : Item :=
  match c with
  | add_call item _ => item
  | remove_call item _ => item
  end.

(** Object identities are used consistently in [l]: two of its items that
    are the same object are the same item. *)
Definition coherent (l : list (@Item W)) : Prop :=
  forall a b, In a l -> In b l -> same_object a b = true -> a = b.

(** Every key of [d'] is a key of [d]. *)
Definition keys_within d' d : Prop :=
  forall k v, In (k, v) d' -> exists u, In (k, u) d.

(** What a caller can do with a character, and the character a sequence of
    such actions leaves behind.  ([craft_item] raises nothing when the
    ingredient names are distinct, see [craft_item_cases]; the [Raise]
    branch is there for totality.) *)
Inductive action : Type :=
| pick_up (item : @Item W) (quantity : Z)
| use_named (item_name : string)
| craft (recipe : @Recipe W).

Definition act (character : @Character W) (a : action) : Character :=
  match a with
  | pick_up item quantity => fst (pick_up_item character item quantity)
  | use_named item_name => fst (use_item character item_name)
  | craft recipe =>
      match craft_item recipe character with
      | Return (after, _) => after
      | Raise _ => character
      end
  end.

Definition after_actions (character : @Character W) (actions : list action) : Character :=
  fold_left act actions character.

(** What the first loop of [craft_item] decides for one ingredient: its name
    finds an item and the quantity held of that item is not below the
    required one. *)
Definition ingredient_available inv (ingredient : string * Z) : bool :=
  match get_item_by_name inv (fst ingredient) with
  | None => false
  | Some item => negb (quantity_of inv item <? snd ingredient)
  end.

(** The quantity the recipe takes of [item]: the required quantities of
    the ingredients whose name finds [item]. *)
Definition required_of inv (ings : list (string * Z)) item : Z :=
  fold_right
    (fun (ingredient : string * Z) acc =>
       match get_item_by_name inv (fst ingredient) with
       | Some found => if same_object found item then snd ingredient + acc else acc
       | None => acc
       end)
    0 ings.

End Vocabulary.

(** * Scenarios

    The inputs of the examples below, in binary64 arithmetic unless said
    otherwise.  Objects [1], [2], [3] are the result items of
    [initialize_recipes 1]. *)

(** [Material(n, w, c, t)], [Potion(n, w, c, e, v)] and
    [Weapon(n, w, c, d, k)] as the object of identity [id]. *)
Definition material (id : positive) (n : string) (w : Q) (c : Z) (t : string)
  : @Item float :=
  AMaterial
    {| material_base := {| oid := id; name := n; weight := lit w; cost := c |};
       material_type := t |}.

Definition potion (id : positive) (n : string) (w : Q) (c : Z) (e : string) (v : Z)
  : @Potion float :=
  {| potion_base := {| oid := id; name := n; weight := lit w; cost := c |};
     effect := e; value := v |}.

Definition weapon (id : positive) (n : string) (w : Q) (c d : Z) (k : string)
  : @Weapon float :=
  {| weapon_base := {| oid := id; name := n; weight := lit w; cost := c |};
     damage := d; weapon_class := k |}.

Definition iron_sword_recipe : @Recipe float :=
  {| recipe_name := "Iron Sword"; required_level := 1;
     ingredients := [("Iron Ore", 3); ("Wood", 1)];
     result := AWeapon
       {| weapon_base := {| oid := 1; name := "Iron Sword"; weight := lit (5 # 1); cost := 100 |};
          damage := 25; weapon_class := "sword" |} |}.

Definition wooden_staff : @Item float :=
  AWeapon
    {| weapon_base := {| oid := 2; name := "Wooden Staff"; weight := lit (3 # 1); cost := 80 |};
       damage := 20; weapon_class := "staff" |}.

Definition wooden_staff_recipe : @Recipe float :=
  {| recipe_name := "Wooden Staff"; required_level := 1;
     ingredients := [("Wood", 2); ("Crystal", 1)];
     result := wooden_staff |}.

(** [Material("Iron Ore", 2.0, 10, "metal")] and [Material("Wood", 1.0, 5, "wood")]
    of the demonstration script. *)
Definition iron_ore : @Item float := material 7 "Iron Ore" (2 # 1) 10 "metal".
Definition wood : @Item float := material 8 "Wood" (1 # 1) 5 "wood".

(** A character from the factory who picked up two Iron Ore and three Wood
    (the factory accepts ["warrior"]: the first branch is the one taken). *)
Definition smith : @Character float :=
  match fst (create_character "warrior" "Smith" 4) with
  | Some c => fst (pick_up_item (fst (pick_up_item c iron_ore 2)) wood 3)
  | None => new_character Warrior "Smith"
  end.

(** [test_char] of the demonstration script: a character from the factory
    who picked up five Iron Ore and three Wood. *)
Definition rich_smith : @Character float :=
  match fst (create_character "warrior" "Smith" 4) with
  | Some c => fst (pick_up_item (fst (pick_up_item c iron_ore 5)) wood 3)
  | None => new_character Warrior "Smith"
  end.

(** A warrior built by [Warrior("Smith")] who picked up an anvil of weight
    78.0, two pieces of wood of weight 0.5 and a crystal of weight 0.5:
    79.5 of the 80.0 the inventory may weigh. *)
Definition anvil : @Item float := material 10 "Anvil" (78 # 1) 40 "metal".
Definition light_wood : @Item float := material 11 "Wood" (1 # 2) 5 "wood".
Definition crystal : @Item float := material 12 "Crystal" (1 # 2) 30 "gem".

Definition loaded_smith : @Character float :=
  let c := new_character Warrior "Smith" in
  let c := fst (pick_up_item c anvil 1) in
  let c := fst (pick_up_item c light_wood 2) in
  fst (pick_up_item c crystal 1).

(** A crate of weight 6 in an inventory that may weigh 10, in either
    arithmetic. *)
Definition crate {W : Type} `{Number W} : @Item W :=
  AMaterial
    {| material_base := {| oid := 20; name := "Crate"; weight := lit (6 # 1); cost := 1 |};
       material_type := "wood" |}.

(** The inventory after the first crate went in. *)
Definition one_crate {W : Type} `{Number W} : @Inventory W :=
  fst (add_item (new_inventory (lit (10 # 1))) crate 1).

(** A feather of weight 1.0 and a boulder of weight 1e16. *)
Definition feather : @Item float := material 21 "Feather" (1 # 1) 1 "down".
Definition boulder : @Item float :=
  material 22 "Boulder" (10000000000000000 # 1) 1 "stone".

Definition strong_potion : @Potion float := potion 30 "Strong Potion" (1 # 2) 50 "heal" 80.
Definition mana_potion : @Potion float := potion 31 "Mana Potion" (1 # 2) 50 "mana" 40.

(** A warrior (150 maximal health) wounded down to 100, carrying three
    strong potions and one mana potion. *)
Definition wounded_warrior : @Character float :=
  let c := with_health (new_character Warrior "Aragorn") 100 in
  let c := fst (pick_up_item c (APotion strong_potion) 3) in
  fst (pick_up_item c (APotion mana_potion) 1).

Definition pebble : @Item float := material 40 "Pebble" (1 # 1) 1 "stone".

Definition two_pebbles : @Inventory float :=
  fst (add_item (new_inventory (lit (10 # 1))) pebble 2).

(** An inventory whose only entry stores [q] pebbles. *)
Definition pebble_debt (q : Z) : @Inventory float :=
  {| max_weight := lit (10 # 1); items := [(pebble, q)] |}.

(** [Weapon("Longbow", 3.0, 120, 28, "bow")] and
    [Weapon("Steel Sword", 6.0, 150, 30, "sword")] of the demonstration. *)
Definition longbow : @Weapon float := weapon 50 "Longbow" (3 # 1) 120 28 "bow".
Definition steel_sword : @Weapon float := weapon 51 "Steel Sword" (6 # 1) 150 30 "sword".

(** An archer carrying the bow and the sword. *)
Definition archer : @Character float :=
  let c := new_character Archer "Legolas" in
  let c := fst (pick_up_item c (AWeapon longbow) 1) in
  fst (pick_up_item c (AWeapon steel_sword) 1).

(** Two weapons of one name: a sword and a bow, both called "Blade". *)
Definition blade_sword : @Weapon float := weapon 52 "Blade" (6 # 1) 150 30 "sword".
Definition blade_bow : @Weapon float := weapon 53 "Blade" (3 # 1) 120 28 "bow".

(** A warrior who picked up the sword first and the bow second. *)
Definition blade_collector : @Character float :=
  let c := new_character Warrior "Boromir" in
  let c := fst (pick_up_item c (AWeapon blade_sword) 1) in
  fst (pick_up_item c (AWeapon blade_bow) 1).

(** A flask of which no unit is held: [pick_up_item(flask, 0)] stores the
    quantity 0. *)
Definition flask : @Potion float := potion 32 "Flask" (1 # 2) 5 "heal" 10.

Definition flask_owner : @Character float :=
  fst (pick_up_item (with_health (new_character Mage "Merlin") 50) (APotion flask) 0).

(** The Leather Armor recipe of [initialize_recipes 1]. *)
Definition leather_armor_recipe : @Recipe float :=
  {| recipe_name := "Leather Armor"; required_level := 2;
     ingredients := [("Leather", 4); ("Thread", 2)];
     result := AnArmor
       {| armor_base := {| oid := 3; name := "Leather Armor"; weight := lit (8 # 1); cost := 120 |};
          defense := 15 |} |}.

(** A second object that is also named "Pebble". *)
Definition pebble_twin : @Item float := material 41 "Pebble" (1 # 1) 1 "stone".

(** [Armor("Chain Mail", 15.0, 180, 25)] of the demonstration, and the
    archer of the demonstration, who picks up the bow and the armor. *)
Definition chain_mail : @Armor float :=
  {| armor_base := {| oid := 54; name := "Chain Mail"; weight := lit (15 # 1); cost := 180 |};
     defense := 25 |}.

Definition armed_archer : @Character float :=
  let c := new_character Archer "Legolas" in
  let c := fst (pick_up_item c (AWeapon longbow) 1) in
  fst (pick_up_item c (AnArmor chain_mail) 1).

(** A barrel of weight 3/2, in either arithmetic. *)
Definition barrel {W : Type} `{Number W} : @Item W :=
  AMaterial
    {| material_base := {| oid := 23; name := "Barrel"; weight := lit (3 # 2); cost := 2 |};
       material_type := "wood" |}.

(** The Iron Sword recipe and a miner holding four Iron Ore (weight 2 each)
    and one Wood (weight 1), in either arithmetic. *)
Definition ore {W : Type} `{Number W} : @Item W :=
  AMaterial
    {| material_base := {| oid := 60; name := "Iron Ore"; weight := lit (2 # 1); cost := 10 |};
       material_type := "metal" |}.

Definition plank {W : Type} `{Number W} : @Item W :=
  AMaterial
    {| material_base := {| oid := 61; name := "Wood"; weight := lit (1 # 1); cost := 5 |};
       material_type := "wood" |}.

Definition sword_recipe {W : Type} `{Number W} : @Recipe W :=
  {| recipe_name := "Iron Sword"; required_level := 1;
     ingredients := [("Iron Ore", 3); ("Wood", 1)];
     result := AWeapon
       {| weapon_base := {| oid := 1; name := "Iron Sword"; weight := lit (5 # 1); cost := 100 |};
          damage := 25; weapon_class := "sword" |} |}.

Definition miner {W : Type} `{Number W} : @Character W :=
  let c := new_character Warrior "Gimli" in
  let c := fst (pick_up_item c ore 4) in
  fst (pick_up_item c plank 1).

(** The first two characters of the demonstration, made one after the
    other by the factory. *)
Definition first_made : @Character float :=
  match fst (create_character "warrior" "Aragorn" 4) with
  | Some c => c
  | None => new_character Warrior "Aragorn"
  end.

Definition second_made : @Character float :=
  match fst (create_character "mage" "Gandalf" 7) with
  | Some c => c
  | None => new_character Mage "Gandalf"
  end.

(** The Water of the first character. *)
Definition first_water : @Item float :=
  APotion (potion 4 "Water" (5 # 10) 5 "heal" 10).

(** * Tactics *)

(** Decides every [same_object] test of the goal by cases on the
    identities involved. *)
Ltac by_identity :=
  unfold same_object in *;
  repeat match goal with
         | |- context [Pos.eqb ?a ?b] => destruct (Pos.eqb_spec a b)
         | H : context [Pos.eqb ?a ?b] |- _ => destruct (Pos.eqb_spec a b)
         end;
  simpl in *; try congruence; auto.

(** Settles a [dict_get] over keys whose identities are [fresh], [fresh + 1],
    ... by cases on the identity tests. *)
Ltac fresh_key :=
  simpl; unfold same_object; simpl;
  repeat match goal with
         | |- context [Pos.eqb ?a ?b] => destruct (Pos.eqb_spec a b); [lia|]
         end;
  reflexivity.

(** Proves [dict_wf] of a dictionary given by its entries. *)
Ltac wf_entries :=
  unfold dict_wf; simpl;
  repeat (constructor; [simpl; intuition discriminate|]); constructor.

(** * Properties *)

Section DictFacts.

Context {W : Type}.
Implicit Types (d : @Dict W) (k j : @Item W) (v : Z).

Lemma same_object_refl k : same_object k k = true.
Proof. apply Pos.eqb_refl. Qed.

(** Lookup sees the identity of the key only. *)
Lemma dict_get_same_object d k j :
  same_object k j = true -> dict_get d j = dict_get d k.
Proof.
  intros E. induction d as [|[k' v'] d IH]; simpl; [reflexivity|].
  rewrite IH. by_identity.
Qed.

Lemma dict_get_set d k v j :
  dict_get (dict_set d k v) j = if same_object k j then Some v else dict_get d j.
Proof.
  induction d as [|[k' v'] d IH]; simpl.
  - reflexivity.
  - destruct (same_object k' k) eqn:E; simpl; rewrite ?IH; by_identity.
Qed.

Lemma dict_get_del_other d k j :
  same_object k j = false -> dict_get (dict_del d k) j = dict_get d j.
Proof.
  intros E. induction d as [|[k' v'] d IH]; simpl.
  - reflexivity.
  - destruct (same_object k' k) eqn:E'; simpl; rewrite ?IH; by_identity.
Qed.

Lemma dict_get_none_notin d k :
  dict_get d k = None ->
  ~ In (oid k) (map (fun entry : Item * Z => oid (fst entry)) d).
Proof.
  induction d as [|[k' v'] d IH]; simpl; intros E.
  - tauto.
  - destruct (same_object k' k) eqn:E'; [discriminate|].
    intros [A|A]; [by_identity | now apply IH].
Qed.

Lemma dict_get_notin_none d k :
  ~ In (oid k) (map (fun entry : Item * Z => oid (fst entry)) d) ->
  dict_get d k = None.
Proof.
  induction d as [|[k' v'] d IH]; simpl; intros E.
  - reflexivity.
  - destruct (same_object k' k) eqn:E'.
    + exfalso. apply E. left. by_identity.
    + apply IH. tauto.
Qed.

Lemma dict_get_del_same d k :
  dict_wf d -> dict_get (dict_del d k) k = None.
Proof.
  unfold dict_wf. induction d as [|[k' v'] d IH]; simpl; intros ND.
  - reflexivity.
  - inversion ND as [|? ? NI ND']; subst.
    destruct (same_object k' k) eqn:E; simpl.
    + apply dict_get_notin_none. by_identity.
    + rewrite E. now apply IH.
Qed.

Lemma dict_set_absent d k v :
  dict_get d k = None -> dict_set d k v = d ++ [(k, v)].
Proof.
  induction d as [|[k' v'] d IH]; simpl; intros E.
  - reflexivity.
  - destruct (same_object k' k); [discriminate|]. now rewrite IH.
Qed.

Lemma dict_set_same d k v :
  dict_get d k = Some v -> dict_set d k v = d.
Proof.
  induction d as [|[k' v'] d IH]; simpl; intros E.
  - discriminate.
  - destruct (same_object k' k); [congruence|]. now rewrite IH.
Qed.

Lemma dict_set_set d k v v' :
  dict_get d k <> None -> dict_set (dict_set d k v) k v' = dict_set d k v'.
Proof.
  induction d as [|[k' u] d IH]; simpl; intros E.
  - congruence.
  - destruct (same_object k' k) eqn:E'; simpl; rewrite E'; [reflexivity|].
    now rewrite IH.
Qed.

Lemma dict_del_set d k v :
  dict_get d k <> None -> dict_del (dict_set d k v) k = dict_del d k.
Proof.
  induction d as [|[k' u] d IH]; simpl; intros E.
  - congruence.
  - destruct (same_object k' k) eqn:E'; simpl; rewrite E'; [reflexivity|].
    now rewrite IH.
Qed.

Lemma dict_del_app_absent d k v :
  dict_get d k = None -> dict_del (d ++ [(k, v)]) k = d.
Proof.
  induction d as [|[k' u] d IH]; simpl; intros E.
  - now rewrite same_object_refl.
  - destruct (same_object k' k); [discriminate|]. now rewrite IH.
Qed.

(** The keys of [dict_set] and [dict_del]. *)
Lemma dict_set_keys_present d k v :
  dict_get d k <> None ->
  map (fun entry : Item * Z => oid (fst entry)) (dict_set d k v)
  = map (fun entry : Item * Z => oid (fst entry)) d.
Proof.
  induction d as [|[k' u] d IH]; simpl; intros E.
  - congruence.
  - destruct (same_object k' k); simpl; [reflexivity|]. now rewrite IH.
Qed.

Lemma dict_wf_set d k v : dict_wf d -> dict_wf (dict_set d k v).
Proof.
  unfold dict_wf. intros ND. destruct (dict_get d k) eqn:E.
  - rewrite dict_set_keys_present; [assumption | congruence].
  - rewrite dict_set_absent by assumption. rewrite map_app. simpl.
    apply NoDup_rev in ND. rewrite <- (rev_involutive (_ ++ _)).
    apply NoDup_rev. rewrite rev_app_distr. simpl. constructor; [|assumption].
    rewrite <- in_rev. now apply dict_get_none_notin.
Qed.

Lemma dict_del_incl d k x :
  In x (map (fun entry : Item * Z => oid (fst entry)) (dict_del d k)) ->
  In x (map (fun entry : Item * Z => oid (fst entry)) d).
Proof.
  induction d as [|[k' u] d IH]; simpl.
  - tauto.
  - destruct (same_object k' k); simpl; tauto.
Qed.

Lemma dict_wf_del d k : dict_wf d -> dict_wf (dict_del d k).
Proof.
  unfold dict_wf. induction d as [|[k' u] d IH]; simpl; intros ND.
  - constructor.
  - inversion ND as [|? ? NI ND']; subst.
    destruct (same_object k' k); simpl; [assumption|].
    constructor; [|now apply IH].
    intros A. apply NI. now apply dict_del_incl in A.
Qed.

(** The item found under a name is a key of the dictionary. *)
Lemma find_by_name_key d n item :
  find_by_name d n = Some item -> exists q, dict_get d item = Some q.
Proof.
  induction d as [|[k' u] d IH]; simpl; intros E.
  - discriminate.
  - destruct (String.eqb (name k') n).
    + injection E as <-. rewrite same_object_refl. now exists u.
    + destruct (same_object k' item); [now exists u | now apply IH].
Qed.

Lemma find_by_name_name d n item :
  find_by_name d n = Some item -> name item = n.
Proof.
  induction d as [|[k' u] d IH]; simpl; intros E.
  - discriminate.
  - destruct (String.eqb (name k') n) eqn:E'.
    + injection E as <-. now apply String.eqb_eq.
    + now apply IH.
Qed.

End DictFacts.

Section InventoryFacts.

Context {W : Type} `{Number W}.
Implicit Types (inv : @Inventory W) (item other : @Item W) (d : @Dict W).

(** [add_item] and [remove_item] in one equation each: both branches of
    [add_item] store the quantity held before plus the quantity added. *)
Lemma add_item_eq inv item quantity :
  add_item inv item quantity =
  if gt (add (calculate_weight (items inv)) (mul (weight item) (of_int quantity)))
        (max_weight inv)
  then (inv, false)
  else (with_items inv (dict_set (items inv) item (quantity_of inv item + quantity)), true).
Proof.
  unfold add_item, quantity_of.
  destruct (gt _ _); [reflexivity|].
  destruct (dict_get (items inv) item); reflexivity.
Qed.

Lemma with_items_same inv : with_items inv (items inv) = inv.
Proof. destruct inv; reflexivity. Qed.

Lemma with_items_twice inv d d' :
  with_items (with_items inv d) d' = with_items inv d'.
Proof. reflexivity. Qed.

Lemma add_item_failure inv item quantity :
  snd (add_item inv item quantity) = false -> fst (add_item inv item quantity) = inv.
Proof.
  rewrite add_item_eq. destruct (gt _ _); simpl; [reflexivity | discriminate].
Qed.

Lemma remove_item_failure inv item quantity :
  snd (remove_item inv item quantity) = false ->
  fst (remove_item inv item quantity) = inv.
Proof.
  unfold remove_item. destruct (dict_get (items inv) item) as [q|]; [|reflexivity].
  destruct (q <? quantity); [reflexivity|].
  simpl. destruct (q - quantity =? 0); simpl; discriminate.
Qed.

(** Removing at most what is held succeeds; the entry is deleted when
    nothing is left and lowered otherwise. *)
Lemma remove_item_held inv item quantity q :
  dict_get (items inv) item = Some q -> quantity <= q ->
  remove_item inv item quantity =
  (with_items inv (if q - quantity =? 0
                   then dict_del (items inv) item
                   else dict_set (items inv) item (q - quantity)), true).
Proof.
  intros Hq Hle. unfold remove_item. rewrite Hq.
  destruct (Z.ltb_spec q quantity) as [Hlt|_]; [lia|].
  simpl. destruct (q - quantity =? 0); [|reflexivity].
  rewrite dict_del_set by congruence. reflexivity.
Qed.

(** The quantities after a successful [remove_item], in a well-formed
    dictionary. *)
Lemma remove_item_quantities inv item quantity q :
  dict_wf (items inv) ->
  dict_get (items inv) item = Some q -> quantity <= q ->
  let after := fst (remove_item inv item quantity) in
  quantity_of after item = q - quantity /\
  (q - quantity = 0 -> dict_get (items after) item = None) /\
  (forall other, same_object item other = false ->
                 dict_get (items after) other = dict_get (items inv) other) /\
  max_weight after = max_weight inv.
Proof.
  intros Hwf Hq Hle. rewrite (remove_item_held _ _ _ _ Hq Hle). simpl.
  unfold quantity_of. simpl.
  destruct (Z.eqb_spec (q - quantity) 0) as [E|E].
  - rewrite dict_get_del_same by assumption.
    repeat split; auto.
    intros other Hother. now apply dict_get_del_other.
  - rewrite dict_get_set, same_object_refl.
    repeat split; auto; [lia|].
    intros other Hother. now rewrite dict_get_set, Hother.
Qed.

(** Well-formedness of the dictionary is kept by both operations. *)
Lemma add_item_wf inv item quantity :
  dict_wf (items inv) -> dict_wf (items (fst (add_item inv item quantity))).
Proof.
  intros Hwf. rewrite add_item_eq. destruct (gt _ _); simpl; [assumption|].
  now apply dict_wf_set.
Qed.

Lemma remove_item_wf inv item quantity :
  dict_wf (items inv) -> dict_wf (items (fst (remove_item inv item quantity))).
Proof.
  intros Hwf. unfold remove_item.
  destruct (dict_get (items inv) item) as [q|]; [|assumption].
  destruct (q <? quantity); [assumption|].
  simpl. destruct (q - quantity =? 0); simpl.
  - now apply dict_wf_del, dict_wf_set.
  - now apply dict_wf_set.
Qed.

Lemma remove_item_max_weight_any inv item quantity :
  max_weight (fst (remove_item inv item quantity)) = max_weight inv.
Proof.
  unfold remove_item. destruct (dict_get (items inv) item) as [q|]; [|reflexivity].
  destruct (q <? quantity); [reflexivity|].
  cbv zeta. destruct (q - quantity =? 0); reflexivity.
Qed.

(** A key that is not in the dictionary yet goes last. *)
Lemma add_item_new_key inv item quantity :
  dict_get (items inv) item = None ->
  gt (add (calculate_weight (items inv)) (mul (weight item) (of_int quantity)))
     (max_weight inv) = false ->
  fst (add_item inv item quantity) = with_items inv (items inv ++ [(item, quantity)]).
Proof.
  intros Hnew Hfits. rewrite add_item_eq, Hfits. simpl.
  unfold quantity_of. rewrite Hnew. now rewrite dict_set_absent.
Qed.

End InventoryFacts.

Section CallSequences.

Context {W : Type} `{Number W}.
Implicit Types (inv : @Inventory W) (item : @Item W) (d : @Dict W).

Lemma positive_entries_get d item q :
  positive_entries d -> dict_get d item = Some q -> 1 <= q.
Proof.
  unfold positive_entries. induction d as [|[k v] d IH]; simpl; intros Hd Hq.
  - discriminate.
  - inversion Hd; subst. destruct (same_object k item); [|auto].
    injection Hq as <-. assumption.
Qed.

Lemma positive_entries_set d item v :
  positive_entries d -> 1 <= v -> positive_entries (dict_set d item v).
Proof.
  unfold positive_entries. induction d as [|[k u] d IH]; simpl; intros Hd Hv.
  - constructor; [assumption | constructor].
  - inversion Hd; subst.
    destruct (same_object k item); constructor; auto.
Qed.

Lemma positive_entries_del d item :
  positive_entries d -> positive_entries (dict_del d item).
Proof.
  unfold positive_entries. induction d as [|[k u] d IH]; simpl; intros Hd.
  - constructor.
  - inversion Hd; subst.
    destruct (same_object k item); [assumption | constructor; auto].
Qed.

Lemma add_item_positive inv item quantity :
  1 <= quantity -> positive_entries (items inv) ->
  positive_entries (items (fst (add_item inv item quantity))).
Proof.
  intros Hq Hd. rewrite add_item_eq. destruct (gt _ _); simpl; [assumption|].
  apply positive_entries_set; [assumption|].
  unfold quantity_of. destruct (dict_get (items inv) item) as [q|] eqn:E; [|lia].
  pose proof (positive_entries_get _ _ _ Hd E). lia.
Qed.

Lemma remove_item_positive inv item quantity :
  positive_entries (items inv) ->
  positive_entries (items (fst (remove_item inv item quantity))).
Proof.
  intros Hd. unfold remove_item.
  destruct (dict_get (items inv) item) as [q|] eqn:E; [|assumption].
  destruct (Z.ltb_spec q quantity); [assumption|].
  simpl. destruct (Z.eqb_spec (q - quantity) 0); simpl.
  - rewrite dict_del_set by congruence. now apply positive_entries_del.
  - apply positive_entries_set; [assumption | lia].
Qed.

(** X2.  Every inventory reached from the empty one through [add_item] and
    [remove_item] calls has a well-formed dictionary. *)
Theorem after_calls_wf (max_weight : W) (calls : list call) :
  dict_wf (items (after_calls max_weight calls)).
Proof.
  unfold after_calls.
  assert (Hstart : dict_wf (items (new_inventory max_weight))) by constructor.
  revert Hstart. generalize (new_inventory max_weight) as inv.
  induction calls as [|c calls IH]; intros inv Hinv; simpl; [exact Hinv|].
  apply IH. destruct c as [item quantity | item quantity]; simpl.
  - now apply add_item_wf.
  - now apply remove_item_wf.
Qed.

(** C5.  Starting from an empty inventory, after any sequence of
    [remove_item] calls and of [add_item] calls whose quantity is at least 1,
    every entry of the item-to-quantity mapping has a quantity of at least 1:
    an entry whose quantity reaches 0 is deleted. *)
Theorem quantities_at_least_one (max_weight : W) (calls : list call) :
  Forall (fun c => match c with
                   | add_call _ quantity => 1 <= quantity
                   | remove_call _ _ => True
                   end) calls ->
  Forall (fun entry : Item * Z => 1 <= snd entry)
         (items (after_calls max_weight calls)).
Proof.
  unfold after_calls.
  assert (Hstart : positive_entries (items (new_inventory max_weight)))
    by constructor.
  revert Hstart. generalize (new_inventory max_weight) as inv.
  induction calls as [|c calls IH]; intros inv Hinv Hcalls; simpl.
  - exact Hinv.
  - inversion Hcalls; subst. apply IH; [|assumption].
    destruct c as [item quantity | item quantity]; simpl.
    + now apply add_item_positive.
    + now apply remove_item_positive.
Qed.

(** C6.  In an inventory where the quantity stored for the item is not
    negative, a successful [add_item(item, q)] followed by
    [remove_item(item, q)] succeeds and restores the mapping exactly, order
    included: the item's prior entry, or no entry when the item had none or
    was stored with quantity 0; no other entry changes. *)
Theorem add_then_remove_restores inv item quantity inv1 :
  0 <= quantity_of inv item ->
  add_item inv item quantity = (inv1, true) ->
  remove_item inv1 item quantity =
  (match dict_get (items inv) item with
   | Some 0 => with_items inv (dict_del (items inv) item)
   | _ => inv
   end, true).
Proof.
  intros Hold Hadd. rewrite add_item_eq in Hadd.
  destruct (gt _ _); [discriminate|]. injection Hadd as <-.
  rewrite (remove_item_held _ _ _ (quantity_of inv item + quantity));
    [| simpl; now rewrite dict_get_set, same_object_refl | lia].
  replace (quantity_of inv item + quantity - quantity) with (quantity_of inv item) by lia.
  unfold quantity_of in *. simpl. rewrite with_items_twice.
  destruct (dict_get (items inv) item) as [old|] eqn:E.
  - destruct (Z.eqb_spec old 0) as [->|Hne].
    + rewrite dict_del_set by congruence. reflexivity.
    + rewrite dict_set_set by congruence.
      rewrite (dict_set_same _ _ old) by assumption.
      rewrite with_items_same.
      destruct old; [congruence | reflexivity | reflexivity].
  - simpl. rewrite dict_set_absent by assumption.
    rewrite dict_del_app_absent by assumption. now rewrite with_items_same.
Qed.

End CallSequences.

(** ** Weights in exact arithmetic *)

Section ExactWeights.

Implicit Types (inv : @Inventory Q) (item : @Item Q) (d : @Dict Q).

Local Open Scope Q_scope.

Lemma calculate_weight_from d : forall a : Q,
  fold_left
    (fun acc (entry : Item * Z) => add acc (mul (weight (fst entry)) (of_int (snd entry))))
    d a
  == a + calculate_weight d.
Proof.
  unfold calculate_weight.
  induction d as [|[k v] d IH]; intros a; simpl.
  - ring.
  - rewrite IH. rewrite (IH (0 + _)). ring.
Qed.

Lemma calculate_weight_cons k v d :
  calculate_weight ((k, v) :: d) == weight k * inject_Z v + calculate_weight d.
Proof.
  unfold calculate_weight at 1. simpl. rewrite calculate_weight_from. ring.
Qed.

Lemma known_tail k v d item : known ((k, v) :: d) item -> known d item.
Proof. intros Hk k' v' Hin. apply (Hk k' v'). now right. Qed.

Lemma calculate_weight_set d item v :
  known d item ->
  calculate_weight (dict_set d item v)
  == calculate_weight d + weight item * inject_Z (v - stored d item).
Proof.
  unfold stored. induction d as [|[k u] d IH]; intros Hk; simpl.
  - rewrite calculate_weight_cons. unfold calculate_weight. simpl.
    rewrite Z.sub_0_r. ring.
  - destruct (same_object k item) eqn:E.
    + rewrite (Hk k u (or_introl eq_refl) E).
      rewrite !calculate_weight_cons.
      unfold Z.sub. rewrite inject_Z_plus, inject_Z_opp. ring.
    + rewrite !calculate_weight_cons, IH by (eapply known_tail; eassumption).
      ring.
Qed.

Lemma calculate_weight_del d item :
  known d item ->
  calculate_weight (dict_del d item)
  == calculate_weight d - weight item * inject_Z (stored d item).
Proof.
  unfold stored. induction d as [|[k u] d IH]; intros Hk; simpl.
  - unfold calculate_weight. simpl. ring.
  - destruct (same_object k item) eqn:E.
    + rewrite (Hk k u (or_introl eq_refl) E).
      rewrite !calculate_weight_cons. ring.
    + rewrite !calculate_weight_cons, IH by (eapply known_tail; eassumption).
      ring.
Qed.

Lemma add_item_exact inv item quantity :
  add_item inv item quantity =
  if Qle_bool (calculate_weight (items inv) + weight item * inject_Z quantity)
              (max_weight inv)
  then (with_items inv (dict_set (items inv) item (quantity_of inv item + quantity)), true)
  else (inv, false).
Proof.
  rewrite add_item_eq. simpl. destruct (Qle_bool _ _); reflexivity.
Qed.

Lemma calculate_weight_added inv item quantity :
  known (items inv) item ->
  calculate_weight (dict_set (items inv) item (quantity_of inv item + quantity))
  == calculate_weight (items inv) + weight item * inject_Z quantity.
Proof.
  intros Hknown. rewrite calculate_weight_set by assumption.
  unfold quantity_of, stored.
  replace (_ + quantity - _)%Z with quantity by lia. reflexivity.
Qed.

(** Taking units of a weightless or heavier item away never adds weight. *)
Lemma remove_item_lighter inv item quantity :
  known (items inv) item ->
  snd (remove_item inv item quantity) = true ->
  (0 <= quantity)%Z -> 0 <= weight item ->
  calculate_weight (items (fst (remove_item inv item quantity)))
  <= calculate_weight (items inv).
Proof.
  intros Hknown Hok Hq Hw.
  assert (Hpos : 0 <= weight item * inject_Z quantity).
  { apply Qmult_le_0_compat; [assumption|].
    change 0 with (inject_Z 0). now rewrite <- Zle_Qle. }
  unfold remove_item in *.
  destruct (dict_get (items inv) item) as [q|] eqn:E; [|discriminate].
  destruct (Z.ltb_spec q quantity); [discriminate|].
  cbv zeta. destruct (Z.eqb_spec (q - quantity) 0) as [E0|E0]; simpl.
  - rewrite dict_del_set by congruence.
    rewrite calculate_weight_del by assumption. unfold stored. rewrite E.
    replace q with quantity by lia. lra.
  - rewrite calculate_weight_set by assumption. unfold stored. rewrite E.
    replace (q - quantity - q)%Z with (- quantity)%Z by lia.
    rewrite inject_Z_opp. lra.
Qed.

Lemma remove_item_max_weight inv item quantity :
  max_weight (fst (remove_item inv item quantity)) = max_weight inv.
Proof.
  unfold remove_item. destruct (dict_get (items inv) item) as [q|]; [|reflexivity].
  destruct (q <? quantity)%Z; [reflexivity|].
  cbv zeta. destruct (q - quantity =? 0)%Z; reflexivity.
Qed.

(** C3.  With weights computed exactly and an inventory whose total weight
    is at most [max_weight]: [add_item] succeeds if and only if the total
    weight that results from the addition is at most [max_weight]; when it
    succeeds the quantity is raised by the quantity added and the total weight
    is at most [max_weight]; when it fails the inventory is unchanged; and
    after a successful [remove_item] of a quantity that is not negative, of
    an item whose weight is not negative, the total weight is still at most
    [max_weight].  ([known]: the key stored for the item's identity is the
    item itself, as it is for every Python object.) *)
Theorem weight_cap_kept_exactly inv item quantity :
  known (items inv) item ->
  calculate_weight (items inv) <= max_weight inv ->
  let added := add_item inv item quantity in
  let removed := remove_item inv item quantity in
  (snd added = true <->
   calculate_weight (dict_set (items inv) item (quantity_of inv item + quantity))
   <= max_weight inv) /\
  (snd added = true ->
   quantity_of (fst added) item = (quantity_of inv item + quantity)%Z /\
   calculate_weight (items (fst added)) <= max_weight (fst added)) /\
  (snd added = false -> fst added = inv) /\
  (snd removed = true -> (0 <= quantity)%Z -> 0 <= weight item ->
   calculate_weight (items (fst removed)) <= max_weight (fst removed)).
Proof.
  intros Hknown Hcap added removed.
  pose proof (calculate_weight_added inv item quantity Hknown) as Hnew.
  split; [|split; [|split]].
  - subst added. rewrite add_item_exact, Hnew.
    destruct (Qle_bool _ _) eqn:Hfits; simpl.
    + apply Qle_bool_iff in Hfits. tauto.
    + split; [discriminate|]. intros Hle. apply Qle_bool_iff in Hle. congruence.
  - subst added. rewrite add_item_exact.
    destruct (Qle_bool _ _) eqn:Hfits; simpl; [|discriminate].
    intros _. apply Qle_bool_iff in Hfits. split.
    + unfold quantity_of at 1. simpl. now rewrite dict_get_set, same_object_refl.
    + now rewrite Hnew.
  - apply add_item_failure.
  - intros Hok Hq Hw. subst removed. rewrite remove_item_max_weight.
    pose proof (remove_item_lighter inv item quantity Hknown Hok Hq Hw). lra.
Qed.

End ExactWeights.

Section CraftingFacts.

Context {W : Type} `{Number W}.
Implicit Types (inv : @Inventory W) (character : @Character W) (recipe : @Recipe W).

Lemma check_ingredients_returns inv ings :
  check_ingredients inv ings = Return (forallb (ingredient_available inv) ings).
Proof.
  induction ings as [|[n q] ings IH]; simpl.
  - reflexivity.
  - unfold ingredient_available at 1, quantity_of. simpl.
    destruct (get_item_by_name inv n) as [item|] eqn:E; [|reflexivity].
    destruct (find_by_name_key _ _ _ E) as [stored ->].
    destruct (stored <? q); [reflexivity | exact IH].
Qed.

(** *** The second loop *)

Lemma find_by_name_in (d : @Dict W) n item :
  find_by_name d n = Some item -> In item (map fst d).
Proof.
  induction d as [|[k u] d IH]; simpl; intros E.
  - discriminate.
  - destruct (String.eqb (name k) n); [injection E; auto | auto].
Qed.

(** In a well-formed dictionary two keys that are the same object are the
    same key. *)
Lemma dict_wf_key_unique (d : @Dict W) a b :
  dict_wf d -> In a (map fst d) -> In b (map fst d) ->
  same_object a b = true -> a = b.
Proof.
  unfold dict_wf, same_object. intros Hwf Ha Hb E. apply Pos.eqb_eq in E.
  induction d as [|[k u] d IH]; simpl in *; [tauto|].
  inversion Hwf as [|? ? Hnotin Hwf']; subst.
  assert (Hoid : forall x, In x (map fst d) ->
                           In (oid x) (map (fun entry : Item * Z => oid (fst entry)) d)).
  { intros x Hx. apply in_map_iff in Hx. destruct Hx as ([x' v] & <- & Hx).
    apply in_map_iff. now exists (x', v). }
  destruct Ha as [<-|Ha], Hb as [<-|Hb]; auto.
  - exfalso. apply Hnotin. rewrite E. now apply Hoid.
  - exfalso. apply Hnotin. rewrite <- E. now apply Hoid.
Qed.

Lemma find_by_name_set (d : @Dict W) k v n :
  dict_get d k <> None -> find_by_name (dict_set d k v) n = find_by_name d n.
Proof.
  induction d as [|[k' u] d IH]; simpl; intros E.
  - congruence.
  - destruct (same_object k' k); simpl; [reflexivity|].
    destruct (String.eqb (name k') n); [reflexivity | now apply IH].
Qed.

Lemma find_by_name_del (d : @Dict W) k n :
  dict_wf d -> In k (map fst d) -> name k <> n ->
  find_by_name (dict_del d k) n = find_by_name d n.
Proof.
  intros Hwf Hin Hname. induction d as [|[k' u] d IH]; simpl; [reflexivity|].
  destruct (same_object k' k) eqn:E.
  - assert (k' = k) as ->
        by (apply (dict_wf_key_unique ((k', u) :: d)); simpl; auto).
    apply String.eqb_neq in Hname. now rewrite Hname.
  - simpl. destruct (String.eqb (name k') n); [reflexivity|].
    apply IH.
    + unfold dict_wf in *. simpl in Hwf. now inversion Hwf.
    + simpl in Hin. destruct Hin as [->|Hin]; [|assumption].
      now rewrite same_object_refl in E.
Qed.

(** Removing units of the item found under one name leaves the lookup of
    every other name as it was. *)
Lemma remove_item_other_name inv found n n' quantity :
  dict_wf (items inv) ->
  get_item_by_name inv n = Some found -> n <> n' ->
  get_item_by_name (fst (remove_item inv found quantity)) n'
  = get_item_by_name inv n'.
Proof.
  intros Hwf Hfound Hn. unfold get_item_by_name in *.
  pose proof (find_by_name_name _ _ _ Hfound) as Hname.
  pose proof (find_by_name_in _ _ _ Hfound) as Hin.
  destruct (find_by_name_key _ _ _ Hfound) as [q Hq].
  unfold remove_item. rewrite Hq.
  destruct (q <? quantity); [reflexivity|].
  cbv zeta. destruct (q - quantity =? 0); simpl.
  - rewrite dict_del_set by congruence.
    apply find_by_name_del; [assumption | assumption | congruence].
  - apply find_by_name_set. congruence.
Qed.

Lemma required_of_ext inv inv' ings item :
  (forall n, In n (map fst ings) -> get_item_by_name inv' n = get_item_by_name inv n) ->
  required_of inv' ings item = required_of inv ings item.
Proof.
  induction ings as [|[n q] ings IH]; simpl; intros Hsame; [reflexivity|].
  rewrite Hsame by auto. rewrite IH by auto. reflexivity.
Qed.

(** When every ingredient is available, the second loop raises nothing and
    takes from each item exactly what the recipe requires of it. *)
Lemma consume_ingredients_returns ings : forall inv,
  dict_wf (items inv) ->
  NoDup (map fst ings) ->
  forallb (ingredient_available inv) ings = true ->
  exists consumed,
    consume_ingredients inv ings = Return consumed /\
    dict_wf (items consumed) /\
    max_weight consumed = max_weight inv /\
    (forall item, quantity_of consumed item
                  = quantity_of inv item - required_of inv ings item) /\
    (forall n, ~ In n (map fst ings) ->
               get_item_by_name consumed n = get_item_by_name inv n).
Proof.
  induction ings as [|[n q] ings IH]; intros inv Hwf Hnames Havailable.
  - exists inv. simpl. repeat split; auto. intros item. lia.
  - simpl in Havailable. apply andb_true_iff in Havailable.
    destruct Havailable as [Hhead Hrest].
    unfold ingredient_available in Hhead. simpl in Hhead.
    destruct (get_item_by_name inv n) as [found|] eqn:Hfound; [|discriminate].
    apply negb_true_iff, Z.ltb_ge in Hhead.
    inversion Hnames as [|? ? Hfresh Hnames']; subst.
    destruct (find_by_name_key _ _ _ Hfound) as [held Hheld].
    assert (Hq : quantity_of inv found = held) by (unfold quantity_of; now rewrite Hheld).
    rewrite Hq in Hhead.
    destruct (remove_item_quantities inv found q held Hwf Hheld Hhead)
      as (Hsame & _ & Hother & Hmax).
    set (inv1 := fst (remove_item inv found q)) in *.
    assert (Hlookup : forall n', n <> n' ->
                                 get_item_by_name inv1 n' = get_item_by_name inv n').
    { intros n' Hn'. now apply (remove_item_other_name inv found n n'). }
    assert (Hquantity : forall item,
               quantity_of inv1 item
               = quantity_of inv item - if same_object found item then q else 0).
    { intros item. destruct (same_object found item) eqn:E.
      - unfold quantity_of in *.
        rewrite !(dict_get_same_object _ found item E).
        rewrite Hheld. exact Hsame.
      - unfold quantity_of. rewrite Hother by assumption. lia. }
    assert (Hrest' : forallb (ingredient_available inv1) ings = true).
    { rewrite forallb_forall in *. intros [n' q'] Hin.
      specialize (Hrest _ Hin). unfold ingredient_available in *. simpl in *.
      assert (Hn' : n <> n').
      { intros ->. apply Hfresh. apply in_map_iff. now exists (n', q'). }
      rewrite Hlookup by assumption.
      destruct (get_item_by_name inv n') as [found'|] eqn:Hfound'; [|discriminate].
      rewrite Hquantity.
      assert (Hdiff : same_object found found' = false).
      { apply not_true_is_false. intros E.
        apply (dict_wf_key_unique (items inv)) in E;
          [| assumption | eapply find_by_name_in; eassumption
           | eapply find_by_name_in; eassumption].
        apply Hn'. rewrite <- (find_by_name_name _ _ _ Hfound).
        rewrite <- (find_by_name_name _ _ _ Hfound'). now rewrite E. }
      rewrite Hdiff. now rewrite Z.sub_0_r. }
    destruct (IH inv1 (remove_item_wf inv found q Hwf) Hnames' Hrest')
      as (consumed & Hrun & Hwf' & Hmax' & Hqty & Hnames_kept).
    exists consumed. simpl. rewrite Hfound. fold inv1.
    split; [exact Hrun|]. split; [exact Hwf'|]. split; [congruence|]. split.
    + intros item. rewrite Hqty, Hquantity.
      rewrite (required_of_ext inv inv1).
      * destruct (same_object found item); lia.
      * intros n' Hin. apply Hlookup. intros ->. contradiction.
    + intros n' Hnotin. rewrite Hnames_kept by tauto.
      apply Hlookup. intros ->. apply Hnotin. now left.
Qed.


(** C1.  If the character's level is below the recipe's required level, or
    some ingredient name is not found in the inventory, or the item found
    under that name is held in a smaller quantity than required, then
    [craft_item] returns [None] and the character, inventory included, is
    exactly as before the call. *)
Theorem craft_item_failure_changes_nothing recipe character :
  level character < required_level recipe \/
  (exists ingredient_name required_quantity,
      In (ingredient_name, required_quantity) (ingredients recipe) /\
      match get_item_by_name (inventory character) ingredient_name with
      | None => True
      | Some item => quantity_of (inventory character) item < required_quantity
      end) ->
  craft_item recipe character = Return (character, None).
Proof.
  intros Hfail. unfold craft_item.
  destruct (level character <? required_level recipe) eqn:Hlevel; [reflexivity|].
  destruct Hfail as [Hlow | (n & q & Hin & Hbad)].
  - apply Z.ltb_ge in Hlevel. lia.
  - rewrite check_ingredients_returns.
    replace (forallb _ _) with false; [reflexivity|].
    symmetry. apply not_true_is_false. intros Hall.
    rewrite forallb_forall in Hall. specialize (Hall _ Hin).
    unfold ingredient_available in Hall. simpl in Hall.
    destruct (get_item_by_name (inventory character) n); [|discriminate].
    apply negb_true_iff, Z.ltb_ge in Hall. lia.
Qed.

End CraftingFacts.

Section CharacterFacts.

Context {W : Type} `{Number W}.
Implicit Types (character : @Character W) (weapon : @Weapon W) (potion : @Potion W).

(** [Potion.use] when at least one unit of the potion is held: the health
    is set by the [effect] test, the quantity drops by one and the call
    returns [True]. *)
Lemma Potion_use_held character potion q :
  dict_wf (items (inventory character)) ->
  dict_get (items (inventory character)) (APotion potion) = Some q -> 1 <= q ->
  let after := fst (use (APotion potion) character) in
  snd (use (APotion potion) character) = true /\
  health after = (if String.eqb (effect potion) "heal"
                  then Z.min (max_health character) (health character + value potion)
                  else health character) /\
  max_health after = max_health character /\
  quantity_of (inventory after) (APotion potion) = q - 1 /\
  (q = 1 -> dict_get (items (inventory after)) (APotion potion) = None) /\
  (forall other, same_object (APotion potion) other = false ->
      dict_get (items (inventory after)) other
      = dict_get (items (inventory character)) other).
Proof.
  intros Hwf Hq Hle. simpl. unfold Potion_use.
  destruct (remove_item_quantities (inventory character) (APotion potion) 1 q Hwf Hq Hle)
    as (Hqty & Hnone & Hother & _).
  destruct (String.eqb (effect potion) "heal"); simpl;
    repeat split; auto; intros; apply Hnone; lia.
Qed.

(** C4.  Using a heal potion of which the character holds at least one unit
    sets the health to [min(max_health, health + value)], which never exceeds
    [max_health], and then removes exactly one unit of that potion: its
    quantity drops by one (its entry is gone when that was the last unit) and
    no other entry changes.  ([dict_wf]: the inventory's dictionary has no
    key twice.) *)
Theorem heal_potion_use character potion q :
  effect potion = "heal" ->
  dict_wf (items (inventory character)) ->
  dict_get (items (inventory character)) (APotion potion) = Some q -> 1 <= q ->
  let after := fst (use (APotion potion) character) in
  health after = Z.min (max_health character) (health character + value potion) /\
  health after <= max_health after /\
  quantity_of (inventory after) (APotion potion) = q - 1 /\
  (q = 1 -> dict_get (items (inventory after)) (APotion potion) = None) /\
  (forall other, same_object (APotion potion) other = false ->
      dict_get (items (inventory after)) other
      = dict_get (items (inventory character)) other).
Proof.
  intros Heal Hwf Hq Hle.
  destruct (Potion_use_held character potion q Hwf Hq Hle)
    as (_ & Hhealth & Hmax & Hqty & Hnone & Hother).
  cbv zeta in *. rewrite Heal, String.eqb_refl in Hhealth.
  rewrite Hhealth, Hmax. repeat split; auto. lia.
Qed.

(** C10.  Using a potion whose effect is not ["heal"], of which the character
    holds at least one unit, returns [True], removes one unit of it and
    leaves the health as it was.  ([dict_wf]: the inventory's dictionary has
    no key twice.) *)
Theorem other_potion_use character potion q :
  effect potion <> "heal" ->
  dict_wf (items (inventory character)) ->
  dict_get (items (inventory character)) (APotion potion) = Some q -> 1 <= q ->
  let after := fst (use (APotion potion) character) in
  snd (use (APotion potion) character) = true /\
  health after = health character /\
  quantity_of (inventory after) (APotion potion) = q - 1 /\
  (q = 1 -> dict_get (items (inventory after)) (APotion potion) = None) /\
  (forall other, same_object (APotion potion) other = false ->
      dict_get (items (inventory after)) other
      = dict_get (items (inventory character)) other).
Proof.
  intros Hother_effect Hwf Hq Hle.
  destruct (Potion_use_held character potion q Hwf Hq Hle)
    as (Hret & Hhealth & _ & Hqty & Hnone & Hother).
  apply String.eqb_neq in Hother_effect.
  cbv zeta in *. rewrite Hother_effect in Hhealth. repeat split; auto.
Qed.

(** C7.  [can_equip_weapon] is true exactly for the weapon classes of the
    character's variant (Warrior: sword, axe, mace; Mage: staff, wand;
    Archer: bow, crossbow), and it is a function of the variant and the
    weapon class alone. *)
Theorem can_equip_weapon_by_class :
  (forall character weapon,
      can_equip_weapon character weapon = true <->
      match char_class character with
      | Warrior => weapon_class weapon = "sword" \/ weapon_class weapon = "axe"
                   \/ weapon_class weapon = "mace"
      | Mage => weapon_class weapon = "staff" \/ weapon_class weapon = "wand"
      | Archer => weapon_class weapon = "bow" \/ weapon_class weapon = "crossbow"
      end) /\
  (exists table : CharacterClass -> string -> bool,
      forall character weapon,
        can_equip_weapon character weapon
        = table (char_class character) (weapon_class weapon)).
Proof.
  split.
  - intros character weapon. unfold can_equip_weapon.
    generalize (weapon_class weapon) as wc. intros wc.
    rewrite existsb_exists.
    destruct (char_class character); cbn [allowed_weapons In]; split.
    all: try (intros (c & Hin & Heq); apply String.eqb_eq in Heq; subst wc;
              intuition (subst; auto)).
    all: intros Hc; exists wc; split;
      [intuition (subst; auto) | apply String.eqb_refl].
  - exists (fun c wc => existsb (fun a => String.eqb a wc) (allowed_weapons c)).
    reflexivity.
Qed.

(** C8.  When name lookup in the inventory finds the weapon under its name,
    [use_item] on that name returns [False] and leaves the character, both
    equipment slots included, unchanged if the weapon's class is not allowed
    for the variant; if it is allowed, [use_item] returns [True], the weapon
    slot holds that weapon and nothing else changes. *)
Theorem use_item_weapon character weapon :
  get_item_by_name (inventory character) (name weapon) = Some (AWeapon weapon) ->
  (can_equip_weapon character weapon = false ->
   use_item character (name weapon) = (character, false)) /\
  (can_equip_weapon character weapon = true ->
   exists after,
     use_item character (name weapon) = (after, true) /\
     weapon_slot (equipment after) = Some (AWeapon weapon) /\
     armor_slot (equipment after) = armor_slot (equipment character) /\
     inventory after = inventory character /\
     health after = health character).
Proof.
  intros Hfound. unfold use_item. rewrite Hfound. simpl. unfold Weapon_use.
  split; intros ->; [reflexivity|].
  eexists. split; [reflexivity|]. simpl. auto.
Qed.

End CharacterFacts.

(** ** The character factory, in binary64 arithmetic *)

(** The three [add_item] calls of [create_starter_inventory] succeed: the
    weights run 1.0, 1.9, 6.9 against a capacity of 50.0. *)
Lemma create_starter_inventory_items (fresh : positive) :
  exists water bread gold : @Item float,
    create_starter_inventory fresh
    = ({| max_weight := lit (50 # 1);
          items := [(water, 2); (bread, 3); (gold, 50)] |}, (fresh + 3)%positive) /\
    name water = "Water" /\ name bread = "Bread" /\ name gold = "Gold Coins".
Proof.
  unfold create_starter_inventory.
  do 3 eexists. split; [|repeat split].
  f_equal.
  rewrite (add_item_new_key (new_inventory _));
    [| reflexivity | vm_compute; reflexivity].
  rewrite (add_item_new_key (with_items _ _) (APotion _));
    [| fresh_key | vm_compute; reflexivity].
  rewrite add_item_new_key; [| fresh_key | vm_compute; reflexivity].
  reflexivity.
  all: reflexivity.
Qed.

Lemma classes_none (key : string) :
  key <> "warrior" -> key <> "mage" -> key <> "archer" -> classes key = None.
Proof.
  intros Hw Hm Ha. unfold classes.
  apply String.eqb_neq in Hw, Hm, Ha. now rewrite Hw, Hm, Ha.
Qed.

(** C9.  When the lower-cased class string is ["warrior"], ["mage"] or
    ["archer"], [create_character] returns the character its constructor
    builds (whose inventory has capacity 80.0, 40.0 or 60.0) with the
    inventory replaced by the starter inventory: capacity 50.0 and exactly
    Water x2, Bread x3 and Gold Coins x50.  For every other class string it
    returns [None]. *)
Theorem create_character_starter (character_class n : string) (fresh : positive) :
  let made := fst (create_character (W := float) character_class n fresh) in
  (forall variant capacity,
      In (lower character_class, (variant, capacity))
         [("warrior", (Warrior, 80 # 1)); ("mage", (Mage, 40 # 1));
          ("archer", (Archer, 60 # 1))] ->
      max_weight (inventory (new_character variant n)) = lit capacity /\
      exists character,
        made = Some character /\
        character = with_inventory (new_character variant n) (inventory character) /\
        max_weight (inventory character) = lit (50 # 1) /\
        map (fun entry : Item * Z => (name (fst entry), snd entry))
            (items (inventory character))
        = [("Water", 2); ("Bread", 3); ("Gold Coins", 50)]) /\
  (lower character_class <> "warrior" -> lower character_class <> "mage" ->
   lower character_class <> "archer" -> made = None).
Proof.
  intros made. subst made. unfold create_character.
  destruct (create_starter_inventory_items fresh)
    as (water & bread & gold & -> & Hwater & Hbread & Hgold).
  split.
  - intros variant capacity Hin. simpl in Hin.
    destruct Hin as [E|[E|[E|[]]]]; injection E as Hkey <- <-;
      rewrite <- Hkey; simpl; (split; [reflexivity|]);
      eexists; (split; [reflexivity|]); simpl;
      rewrite Hwater, Hbread, Hgold; auto.
  - intros Hw Hm Ha. now rewrite classes_none.
Qed.

(** ** More on the inventory operations *)

Section InventoryOperations.

Context {W : Type} `{Number W}.
Implicit Types (inv : @Inventory W) (item other : @Item W) (d : @Dict W).

Lemma find_by_name_app d d' n :
  find_by_name (d ++ d') n =
  match find_by_name d n with
  | Some found => Some found
  | None => find_by_name d' n
  end.
Proof.
  induction d as [|[k u] d IH]; simpl; [reflexivity|].
  destruct (String.eqb (name k) n); [reflexivity | exact IH].
Qed.

(** X3.  [remove_item] succeeds exactly when the item has an entry that
    stores at least the quantity asked for.  When it fails nothing changes;
    when it succeeds the capacity is kept, the item's quantity drops by the
    quantity removed, every other item keeps its quantity, and the entry is
    deleted when nothing is left. *)
Theorem remove_item_effect inv item quantity :
  dict_wf (items inv) ->
  let after := fst (remove_item inv item quantity) in
  let ok := snd (remove_item inv item quantity) in
  (ok = true <->
   exists held, dict_get (items inv) item = Some held /\ quantity <= held) /\
  (ok = false -> after = inv) /\
  (ok = true ->
   max_weight after = max_weight inv /\
   (forall other,
       quantity_of after other
       = quantity_of inv other - if same_object item other then quantity else 0) /\
   (quantity_of inv item = quantity -> dict_get (items after) item = None)).
Proof.
  intros Hwf after ok. subst after ok.
  split; [|split; [apply remove_item_failure|]].
  - unfold remove_item. destruct (dict_get (items inv) item) as [held|].
    + destruct (Z.ltb_spec held quantity); simpl.
      * split; [discriminate|]. intros (h & E & Hle). injection E as <-. lia.
      * destruct (held - quantity =? 0); simpl;
          (split; [intros _; exists held; auto | reflexivity]).
    + simpl. split; [discriminate|]. intros (h & E & _). discriminate.
  - intros Hok.
    assert (Hheld : exists held, dict_get (items inv) item = Some held /\ quantity <= held).
    { revert Hok. unfold remove_item.
      destruct (dict_get (items inv) item) as [held|]; [|discriminate].
      destruct (Z.ltb_spec held quantity); [discriminate|]. now exists held. }
    destruct Hheld as (held & Hget & Hle).
    destruct (remove_item_quantities inv item quantity held Hwf Hget Hle)
      as (Hsame & Hnone & Hother & Hmax).
    split; [exact Hmax|]. split.
    + intros other. destruct (same_object item other) eqn:E.
      * unfold quantity_of in *.
        rewrite !(dict_get_same_object _ item other E). rewrite Hget in *. exact Hsame.
      * unfold quantity_of. rewrite Hother by assumption. lia.
    + intros Hall. apply Hnone. unfold quantity_of in Hall. rewrite Hget in Hall. lia.
Qed.

(** X4.  When [add_item] fails nothing changes.  When it succeeds the
    capacity is kept, the item's quantity rises by the quantity added and
    every other item keeps its quantity; an item that had no entry goes to
    the end of the dictionary, and an item that had one keeps its place. *)
Theorem add_item_effect inv item quantity :
  let after := fst (add_item inv item quantity) in
  let ok := snd (add_item inv item quantity) in
  (ok = false -> after = inv) /\
  (ok = true ->
   max_weight after = max_weight inv /\
   (forall other,
       quantity_of after other
       = quantity_of inv other + if same_object item other then quantity else 0) /\
   (dict_get (items inv) item = None ->
    items after = items inv ++ [(item, quantity)]) /\
   (dict_get (items inv) item <> None ->
    map fst (items after) = map fst (items inv))).
Proof.
  intros after ok. subst after ok.
  split; [apply add_item_failure|].
  rewrite add_item_eq. destruct (gt _ _); simpl; [discriminate|]. intros _.
  split; [reflexivity|]. split; [|split].
  - intros other. unfold quantity_of at 1. simpl. rewrite dict_get_set.
    destruct (same_object item other) eqn:E; [|unfold quantity_of; lia].
    unfold quantity_of. now rewrite (dict_get_same_object _ item other E).
  - intros Hnew. unfold quantity_of. rewrite Hnew. now apply dict_set_absent.
  - intros Hold. generalize (quantity_of inv item + quantity). intros v.
    induction (items inv) as [|[k u] d IH]; simpl in *; [congruence|].
    destruct (same_object k item); simpl; [reflexivity|]. now rewrite IH.
Qed.

(** X5.  Lookup by name after a successful [add_item]: a name that found an
    item before still finds that item; the added item is found under its own
    name only if it had no entry and no earlier item bears the name, so
    items are never merged by name. *)
Theorem lookup_after_add_item inv item quantity n :
  snd (add_item inv item quantity) = true ->
  get_item_by_name (fst (add_item inv item quantity)) n =
  match get_item_by_name inv n, dict_get (items inv) item with
  | Some found, _ => Some found
  | None, None => if String.eqb (name item) n then Some item else None
  | None, Some _ => None
  end.
Proof.
  rewrite add_item_eq. destruct (gt _ _); simpl; [discriminate|]. intros _.
  unfold get_item_by_name. simpl.
  destruct (dict_get (items inv) item) as [held|] eqn:E.
  - rewrite find_by_name_set by congruence.
    destruct (find_by_name (items inv) n); reflexivity.
  - rewrite dict_set_absent by assumption. rewrite find_by_name_app. simpl.
    destruct (find_by_name (items inv) n); [reflexivity|].
    destruct (String.eqb (name item) n); reflexivity.
Qed.

End InventoryOperations.

(** ** More on using items *)

Section UsingItems.

Context {W : Type} `{Number W}.
Implicit Types (character : @Character W) (weapon : @Weapon W) (armor : @Armor W).

Lemma pick_up_item_inventory character (item : @Item W) quantity :
  inventory (fst (pick_up_item character item quantity))
  = fst (add_item (inventory character) item quantity).
Proof.
  unfold pick_up_item. destruct (add_item _ _ _). reflexivity.
Qed.

(** X6.  [use_item] returns [False] exactly when the name finds no item, or
    finds a material, or finds a weapon whose class the character may not
    equip; then nothing changes.  In every case the class, name, level,
    maximal health and inventory capacity are kept; the inventory and the
    health change only when the item found is a potion, and the equipment
    only when it is a weapon or an armor. *)
Theorem use_item_outcome character n :
  let found := get_item_by_name (inventory character) n in
  let after := fst (use_item character n) in
  (snd (use_item character n) = false <->
   match found with
   | None => True
   | Some (AMaterial _) => True
   | Some (AWeapon w) => can_equip_weapon character w = false
   | Some _ => False
   end) /\
  (snd (use_item character n) = false -> after = character) /\
  (char_class after = char_class character /\
   char_name after = char_name character /\
   level after = level character /\
   max_health after = max_health character /\
   max_weight (inventory after) = max_weight (inventory character)) /\
  match found with
  | Some (APotion _) => equipment after = equipment character
  | Some (AWeapon _) | Some (AnArmor _) =>
      inventory after = inventory character /\ health after = health character
  | _ => after = character
  end.
Proof.
  intros found after. subst found after. unfold use_item.
  destruct (get_item_by_name (inventory character) n) as [[w|a|p|m]|]; simpl.
  - unfold Weapon_use. destruct (can_equip_weapon character w); simpl;
      intuition discriminate.
  - intuition discriminate.
  - unfold Potion_use.
    rewrite remove_item_max_weight_any.
    destruct (String.eqb (effect p) "heal"); simpl; intuition discriminate.
  - intuition.
  - intuition.
Qed.

(** X7.  A weapon the character may equip and an armor, each found under its
    name, can be put on in either order with the same outcome: both calls
    return [True], the two slots hold the weapon and the armor, and the
    inventory still holds both items, since equipping removes nothing. *)
Theorem equip_weapon_and_armor character weapon armor :
  get_item_by_name (inventory character) (name weapon) = Some (AWeapon weapon) ->
  get_item_by_name (inventory character) (name armor) = Some (AnArmor armor) ->
  can_equip_weapon character weapon = true ->
  let equipped :=
    with_equipment character
      {| weapon_slot := Some (AWeapon weapon); armor_slot := Some (AnArmor armor) |} in
  use_item (fst (use_item character (name weapon))) (name armor) = (equipped, true) /\
  use_item (fst (use_item character (name armor))) (name weapon) = (equipped, true) /\
  snd (use_item character (name weapon)) = true /\
  snd (use_item character (name armor)) = true /\
  inventory equipped = inventory character.
Proof.
  intros Hweapon Harmor Hallowed equipped. subst equipped.
  unfold use_item. rewrite Hweapon, Harmor. simpl.
  unfold Weapon_use. rewrite Hallowed. simpl.
  rewrite Hweapon, Harmor. simpl.
  unfold Weapon_use, can_equip_weapon in *. simpl. rewrite Hallowed.
  repeat split.
Qed.

End UsingItems.

(** ** More on recipes and crafting *)

Section Recipes.

Context {W : Type} `{Number W}.
Implicit Types (inv : @Inventory W) (character : @Character W) (recipe : @Recipe W)
  (item : @Item W).

Lemma add_item_max_weight inv item quantity :
  max_weight (fst (add_item inv item quantity)) = max_weight inv.
Proof. rewrite add_item_eq. destruct (gt _ _); reflexivity. Qed.



(** X9.  [available_recipes] keeps exactly the recipes whose required level
    is at most the given level, in their order of registration; what is
    available at a level stays available at every higher level, and the
    lower list is the higher list filtered again. *)
Theorem available_recipes_by_level (recipes : list (@Recipe W)) (lower_level higher_level : Z) :
  lower_level <= higher_level ->
  (forall recipe,
      In recipe (available_recipes recipes lower_level) <->
      In recipe recipes /\ required_level recipe <= lower_level) /\
  (forall more, available_recipes (recipes ++ more) lower_level
                = available_recipes recipes lower_level
                  ++ available_recipes more lower_level) /\
  available_recipes (available_recipes recipes higher_level) lower_level
  = available_recipes recipes lower_level /\
  incl (available_recipes recipes lower_level) (available_recipes recipes higher_level).
Proof.
  intros Hle. unfold available_recipes. split; [|split; [|split]].
  - intros recipe. rewrite filter_In, Z.leb_le. reflexivity.
  - intros more. apply filter_app.
  - induction recipes as [|r recipes IH]; simpl; [reflexivity|].
    destruct (Z.leb_spec (required_level r) higher_level) as [Hh|Hh]; simpl.
    + destruct (required_level r <=? lower_level); now rewrite IH.
    + destruct (Z.leb_spec (required_level r) lower_level); [lia | exact IH].
  - intros recipe. rewrite !filter_In, !Z.leb_le. intuition lia.
Qed.


(** X11.  [dismantle_item] yields nothing for potions, materials and weapons
    whose class is none of sword, axe, staff and wand, and something for
    every other item; whatever it yields is one or two units of Iron Ore,
    Wood, Leather or Thread, each material listed once. *)
Theorem dismantle_item_yield item :
  (dismantle_item item = [] <->
   match item with
   | AWeapon w => weapon_class w <> "sword" /\ weapon_class w <> "axe" /\
                  weapon_class w <> "staff" /\ weapon_class w <> "wand"
   | AnArmor _ => False
   | _ => True
   end) /\
  (forall material yield,
      In (material, yield) (dismantle_item item) ->
      In material ["Iron Ore"; "Wood"; "Leather"; "Thread"] /\ 1 <= yield <= 2) /\
  NoDup (map fst (dismantle_item item)).
Proof.
  destruct item as [w|a|p|m].
  - unfold dismantle_item, existsb.
    generalize (weapon_class w) as wc. intros wc.
    destruct (String.eqb_spec "sword" wc) as [Es|Es];
      destruct (String.eqb_spec "axe" wc) as [Ea|Ea];
      destruct (String.eqb_spec "staff" wc) as [Et|Et];
      destruct (String.eqb_spec "wand" wc) as [Ew|Ew];
      try congruence; cbn [orb].
    all: split; [split; [try discriminate | try reflexivity]|].
    all: try (intros (E1 & E2 & E3 & E4); congruence).
    all: try (intros _; repeat split; congruence).
    all: split;
      [ intros material yield Hin; simpl in Hin;
        repeat (destruct Hin as [E|Hin];
                [injection E as <- <-; split; [simpl; tauto | lia]|]);
        contradiction
      | simpl; repeat (constructor; [simpl; intuition discriminate|]); constructor ].
  - simpl. split; [split; [discriminate | tauto]|].
    split;
      [ intros material yield Hin;
        repeat (destruct Hin as [E|Hin];
                [injection E as <- <-; split; [tauto | lia]|]);
        contradiction
      | repeat (constructor; [simpl; intuition discriminate|]); constructor ].
  - simpl. split; [tauto|]. split; [intros material yield [] | constructor].
  - simpl. split; [tauto|]. split; [intros material yield [] | constructor].
Qed.

(** X12.  Dismantling the result of a registered recipe never yields more of
    a material than the recipe consumed of it: crafting and dismantling in
    turn cannot multiply materials. *)
Theorem dismantle_crafted_item (fresh : positive) recipe material yield :
  In recipe (fst (initialize_recipes fresh)) ->
  In (material, yield) (dismantle_item (result recipe)) ->
  exists consumed,
    In (material, consumed) (ingredients recipe) /\ yield <= consumed.
Proof.
  simpl. intros [<-|[<-|[<-|[]]]]; simpl;
    intros Hin;
    repeat (destruct Hin as [E|Hin];
            [injection E as <- <-; eexists; split; [simpl; eauto 6 | lia]|]);
    contradiction.
Qed.

End Recipes.

(** ** More on weights in exact arithmetic *)

Section KeysFacts.

Context {W : Type} `{Number W}.
Implicit Types (inv : @Inventory W) (item : @Item W) (d : @Dict W).

Lemma keys_within_refl d : keys_within d d.
Proof. intros k v Hin. now exists v. Qed.

Lemma keys_within_trans d1 d2 d3 :
  keys_within d1 d2 -> keys_within d2 d3 -> keys_within d1 d3.
Proof.
  intros H12 H23 k v Hin. destruct (H12 k v Hin) as [u Hu]. exact (H23 k u Hu).
Qed.

Lemma keys_within_del d item : keys_within (dict_del d item) d.
Proof.
  induction d as [|[k u] d IH]; simpl; intros k' v Hin; [contradiction|].
  destruct (same_object k item).
  - exists v. now right.
  - destruct Hin as [E|Hin]; [injection E as <- <-; exists u; now left|].
    destruct (IH k' v Hin) as [u' Hu']. exists u'. now right.
Qed.

Lemma dict_set_entries d item x k v :
  In (k, v) (dict_set d item x) -> k = item \/ exists u, In (k, u) d.
Proof.
  induction d as [|[k' u] d IH]; simpl.
  - intros [E|[]]. injection E as <- <-. now left.
  - destruct (same_object k' item); simpl; intros [E|Hin].
    + injection E as <- <-. right. exists u. now left.
    + right. exists v. now right.
    + injection E as <- <-. right. exists u. now left.
    + destruct (IH Hin) as [->|[u' Hu']]; [now left|]. right. exists u'. now right.
Qed.

Lemma keys_within_set_present d item x :
  dict_get d item <> None -> keys_within (dict_set d item x) d.
Proof.
  induction d as [|[k' u] d IH]; simpl; intros Hget k v Hin; [congruence|].
  destruct (same_object k' item); simpl in Hin.
  - destruct Hin as [E|Hin]; [injection E as <- <-; exists u; now left|].
    exists v. now right.
  - destruct Hin as [E|Hin]; [injection E as <- <-; exists u; now left|].
    destruct (IH Hget k v Hin) as [u' Hu']. exists u'. now right.
Qed.

Lemma keys_within_remove_item inv item quantity :
  keys_within (items (fst (remove_item inv item quantity))) (items inv).
Proof.
  unfold remove_item.
  destruct (dict_get (items inv) item) as [q|] eqn:E; [|apply keys_within_refl].
  destruct (q <? quantity); [apply keys_within_refl|].
  cbv zeta. destruct (q - quantity =? 0); simpl.
  - rewrite dict_del_set by congruence. apply keys_within_del.
  - apply keys_within_set_present. congruence.
Qed.

Lemma known_keys_within d' d item :
  keys_within d' d -> known d item -> known d' item.
Proof.
  intros Hsub Hknown k v Hin Hsame.
  destruct (Hsub k v Hin) as [u Hu]. exact (Hknown k u Hu Hsame).
Qed.

(** A key of a well-formed dictionary is known to it. *)
Lemma key_known d item :
  dict_wf d -> In item (map fst d) -> known d item.
Proof.
  intros Hwf Hin k v Hk Hsame.
  apply (dict_wf_key_unique d); auto.
  apply in_map_iff. now exists (k, v).
Qed.

End KeysFacts.

Section ExactWeightsMore.

Implicit Types (inv : @Inventory Q) (item : @Item Q) (d : @Dict Q).

Local Open Scope Q_scope.

Lemma calculate_weight_app d d' :
  calculate_weight (d ++ d') == calculate_weight d + calculate_weight d'.
Proof.
  induction d as [|[k v] d IH]; simpl.
  - unfold calculate_weight at 2. simpl. ring.
  - rewrite !calculate_weight_cons, IH. ring.
Qed.

(** X13.  In exact arithmetic the total weight does not depend on the order
    of the entries, and the weight of two dictionaries put together is the
    sum of their weights. *)
Theorem calculate_weight_any_order d d' :
  Permutation d d' ->
  calculate_weight d == calculate_weight d' /\
  (forall more, calculate_weight (d ++ more)
                == calculate_weight d' + calculate_weight more).
Proof.
  intros Hperm.
  assert (Hsame : calculate_weight d == calculate_weight d').
  { induction Hperm as [| [k v] d d' _ IH | [k v] [k' v'] d | d1 d2 d3 _ IH12 _ IH23].
    - reflexivity.
    - now rewrite !calculate_weight_cons, IH.
    - rewrite !calculate_weight_cons. ring.
    - now rewrite IH12. }
  split; [exact Hsame|].
  intros more. now rewrite calculate_weight_app, Hsame.
Qed.

(** X14.  In exact arithmetic, when an inventory within its capacity holds
    at least [quantity] units of an item, removing them and adding them
    again both succeed.  If some units were left the inventory is exactly as
    before; if the entry had been deleted the item comes back as the last
    entry. *)
Theorem remove_then_add_restores inv item quantity held :
  dict_wf (items inv) ->
  known (items inv) item ->
  calculate_weight (items inv) <= max_weight inv ->
  dict_get (items inv) item = Some held -> (quantity <= held)%Z ->
  let removed := fst (remove_item inv item quantity) in
  snd (remove_item inv item quantity) = true /\
  add_item removed item quantity
  = (with_items inv
       (if (held - quantity =? 0)%Z
        then dict_del (items inv) item ++ [(item, quantity)]
        else items inv), true).
Proof.
  intros Hwf Hknown Hcap Hheld Hle removed. subst removed.
  rewrite (remove_item_held inv item quantity held Hheld Hle). simpl.
  split; [reflexivity|].
  rewrite add_item_exact. unfold quantity_of. simpl.
  destruct (Z.eqb_spec (held - quantity) 0) as [E|E].
  - rewrite dict_get_del_same by assumption.
    assert (Hfits : Qle_bool (calculate_weight (dict_del (items inv) item)
                              + weight item * inject_Z quantity) (max_weight inv) = true).
    { apply Qle_bool_iff. rewrite calculate_weight_del by assumption.
      unfold stored. rewrite Hheld. replace held with quantity by lia. lra. }
    rewrite Hfits. rewrite dict_set_absent by (now apply dict_get_del_same).
    reflexivity.
  - rewrite dict_get_set, same_object_refl.
    assert (Hfits : Qle_bool (calculate_weight (dict_set (items inv) item (held - quantity))
                              + weight item * inject_Z quantity) (max_weight inv) = true).
    { apply Qle_bool_iff. rewrite calculate_weight_set by assumption.
      unfold stored. rewrite Hheld.
      replace (held - quantity - held)%Z with (- quantity)%Z by lia.
      rewrite inject_Z_opp. lra. }
    rewrite Hfits. rewrite dict_set_set by congruence.
    replace (held - quantity + quantity)%Z with held by lia.
    now rewrite (dict_set_same _ _ held) by assumption.
Qed.

(** One call keeps the cap, given that the keys are among coherent items. *)
Lemma perform_keeps_cap (l : list (@Item Q)) inv (c : @call Q) :
  coherent l -> In (call_item c) l ->
  (forall k v, In (k, v) (items inv) -> In k l) ->
  match c with
  | add_call _ _ => True
  | remove_call item quantity => (0 <= quantity)%Z /\ 0 <= weight item
  end ->
  calculate_weight (items inv) <= max_weight inv ->
  calculate_weight (items (perform inv c)) <= max_weight (perform inv c) /\
  (forall k v, In (k, v) (items (perform inv c)) -> In k l).
Proof.
  intros Hcoherent Hitem Hkeys Hsign Hcap.
  assert (Hknown : known (items inv) (call_item c)).
  { intros k v Hin Hsame. apply Hcoherent; eauto. }
  destruct c as [item quantity | item quantity]; simpl in *.
  - rewrite add_item_exact. destruct (Qle_bool _ _) eqn:Hfits; simpl; [|auto].
    apply Qle_bool_iff in Hfits. split.
    + now rewrite calculate_weight_added.
    + intros k v Hin. apply dict_set_entries in Hin.
      destruct Hin as [->|[u Hu]]; eauto.
  - destruct Hsign as [Hq Hw]. split.
    + rewrite remove_item_max_weight.
      destruct (snd (remove_item inv item quantity)) eqn:Hok.
      * pose proof (remove_item_lighter inv item quantity Hknown Hok Hq Hw). lra.
      * now rewrite (remove_item_failure inv item quantity Hok).
    + intros k v Hin.
      destruct (keys_within_remove_item inv item quantity k v Hin) as [u Hu]. eauto.
Qed.

(** X15.  In exact arithmetic the weight cap holds in every state: starting
    from an empty inventory whose capacity is not negative, after any
    sequence of [add_item] calls and of [remove_item] calls whose quantity
    and item weight are not negative, the total weight is at most
    [max_weight], and [max_weight] is still the initial capacity. *)
Theorem weight_cap_in_every_state (capacity : Q) (calls : list (@call Q)) :
  0 <= capacity ->
  coherent (map call_item calls) ->
  Forall (fun c => match c with
                   | add_call _ _ => True
                   | remove_call item quantity => (0 <= quantity)%Z /\ 0 <= weight item
                   end) calls ->
  calculate_weight (items (after_calls capacity calls))
  <= max_weight (after_calls capacity calls) /\
  max_weight (after_calls capacity calls) = capacity.
Proof.
  intros Hcapacity Hcoherent Hsigns. unfold after_calls.
  set (l := map call_item calls) in *.
  assert (Hitems : forall c, In c calls -> In (call_item c) l)
    by (intros c Hc; now apply in_map).
  assert (Hstart : calculate_weight (items (new_inventory capacity))
                   <= max_weight (new_inventory capacity)
                   /\ (forall k v, In (k, v) (items (new_inventory capacity)) -> In k l)
                   /\ max_weight (new_inventory capacity) = capacity).
  { simpl. split; [exact Hcapacity|]. split; [intros k v []|reflexivity]. }
  revert Hstart. generalize (new_inventory capacity) as inv.
  clearbody l. revert Hitems Hsigns.
  induction calls as [|c calls IH]; intros Hitems Hsigns inv (Hcap & Hkeys & Hmax); simpl.
  - auto.
  - inversion Hsigns as [|? ? Hsign Hsigns']; subst.
    destruct (perform_keeps_cap l inv c Hcoherent (Hitems c (or_introl eq_refl))
                Hkeys Hsign Hcap) as [Hcap' Hkeys'].
    apply IH; auto.
    + intros c' Hc'. apply Hitems. now right.
    + split; [exact Hcap'|]. split; [exact Hkeys'|].
      destruct c as [item quantity | item quantity]; simpl.
      * now rewrite add_item_max_weight.
      * now rewrite remove_item_max_weight.
Qed.

(** The second loop of [craft_item] never adds weight when the items held
    and the required quantities are not negative. *)
Lemma consume_ingredients_lighter ings : forall inv consumed,
  consume_ingredients inv ings = Return consumed ->
  dict_wf (items inv) ->
  (forall k v, In (k, v) (items inv) -> 0 <= weight k) ->
  Forall (fun ingredient : string * Z => (0 <= snd ingredient)%Z) ings ->
  calculate_weight (items consumed) <= calculate_weight (items inv) /\
  keys_within (items consumed) (items inv) /\
  max_weight consumed = max_weight inv.
Proof.
  induction ings as [|[n q] ings IH]; simpl; intros inv consumed Hrun Hwf Hweights Hsigns.
  - injection Hrun as <-. split; [lra|]. split; [apply keys_within_refl | reflexivity].
  - destruct (get_item_by_name inv n) as [found|] eqn:Hfound; [|discriminate].
    inversion Hsigns as [|? ? Hq Hsigns']; subst. simpl in Hq.
    pose proof (find_by_name_in _ _ _ Hfound) as Hin.
    assert (Hknown : known (items inv) found) by now apply key_known.
    assert (Hw : 0 <= weight found).
    { apply in_map_iff in Hin. destruct Hin as ([k v] & Hk & Hin). simpl in Hk.
      subst k. exact (Hweights found v Hin). }
    pose proof (keys_within_remove_item inv found q) as Hsub.
    destruct (IH _ _ Hrun (remove_item_wf inv found q Hwf)) as (Hless & Hkeys & Hmax).
    + intros k v Hk. destruct (Hsub k v Hk) as [u Hu]. exact (Hweights k u Hu).
    + assumption.
    + split; [|split].
      * destruct (snd (remove_item inv found q)) eqn:Hok.
        -- pose proof (remove_item_lighter inv found q Hknown Hok Hq Hw). lra.
        -- now rewrite (remove_item_failure inv found q Hok) in Hless.
      * eapply keys_within_trans; eassumption.
      * now rewrite Hmax, remove_item_max_weight.
Qed.

(** X16.  In exact arithmetic crafting keeps the weight cap: for an
    inventory within its capacity whose items have no negative weight and a
    recipe whose required quantities are not negative, [craft_item] returns
    and the inventory it leaves is within the capacity, whether or not the
    result was added. *)
Theorem craft_item_keeps_weight_cap (recipe : @Recipe Q) (character : @Character Q) :
  dict_wf (items (inventory character)) ->
  NoDup (map fst (ingredients recipe)) ->
  known (items (inventory character)) (result recipe) ->
  (forall k v, In (k, v) (items (inventory character)) -> 0 <= weight k) ->
  Forall (fun ingredient : string * Z => (0 <= snd ingredient)%Z) (ingredients recipe) ->
  calculate_weight (items (inventory character)) <= max_weight (inventory character) ->
  exists after made,
    craft_item recipe character = Return (after, made) /\
    calculate_weight (items (inventory after)) <= max_weight (inventory after) /\
    max_weight (inventory after) = max_weight (inventory character).
Proof.
  intros Hwf Hnames Hknown Hweights Hsigns Hcap. unfold craft_item.
  destruct (level character <? required_level recipe)%Z; [now exists character, None|].
  rewrite check_ingredients_returns.
  destruct (forallb _ _) eqn:Havailable; [|now exists character, None].
  destruct (consume_ingredients_returns _ _ Hwf Hnames Havailable)
    as (consumed & Hrun & _).
  rewrite Hrun.
  destruct (consume_ingredients_lighter _ _ _ Hrun Hwf Hweights Hsigns)
    as (Hless & Hkeys & Hmax).
  eexists _, _. split; [reflexivity|]. simpl.
  rewrite add_item_exact. destruct (Qle_bool _ _) eqn:Hfits; simpl.
  - apply Qle_bool_iff in Hfits. split; [|assumption].
    rewrite calculate_weight_added; [exact Hfits|].
    eapply known_keys_within; eassumption.
  - split; [|assumption]. rewrite Hmax. lra.
Qed.

End ExactWeightsMore.

(** ** Bonuses, printed form and the objects of the factory *)

(** X17.  In binary64 arithmetic the bonus is at least 1.0 and at most 1.5,
    and it is above 1.0 exactly for a warrior's weapon, a mage's potion and
    an archer's armor of weight below 10 (an armor of weight exactly 10 gets
    none). *)
Theorem get_item_bonus_range (character : @Character float) (item : @Item float) :
  let bonus := get_item_bonus character item in
  PrimFloat.leb (lit (1 # 1)) bonus = true /\
  PrimFloat.leb bonus (lit (15 # 10)) = true /\
  (PrimFloat.ltb (lit (1 # 1)) bonus = true <->
   match char_class character, item with
   | Warrior, AWeapon _ => True
   | Mage, APotion _ => True
   | Archer, AnArmor a => PrimFloat.ltb (weight a) (of_int 10) = true
   | _, _ => False
   end).
Proof.
  unfold get_item_bonus.
  destruct (char_class character), item as [w|a|p|m]; cbv zeta.
  all: try (repeat split; try (vm_compute; reflexivity); try tauto;
            vm_compute; discriminate).
  change (gt (of_int 10) (weight a)) with (PrimFloat.ltb (weight a) (of_int 10)).
  destruct (PrimFloat.ltb (weight a) (of_int 10)).
  - repeat split; vm_compute; reflexivity.
  - repeat split; try (vm_compute; reflexivity); vm_compute; discriminate.
Qed.

Section PrintedForm.

Context {W : Type}.
Implicit Types (a b : @Item W).

Lemma list_ascii_of_string_app (s1 s2 : string) :
  list_ascii_of_string (s1 ++ s2)
  = (list_ascii_of_string s1 ++ list_ascii_of_string s2)%list.
Proof. induction s1 as [|c s1 IH]; simpl; [reflexivity | now rewrite IH]. Qed.

(** X18.  The printed form of an item tells its name and its type: two items
    print alike only if they have the same name and the same item type. *)
Theorem repr_tells_name_and_type a b :
  repr a = repr b -> name a = name b /\ item_type a = item_type b.
Proof.
  unfold repr. intros E.
  apply (f_equal list_ascii_of_string) in E.
  rewrite !list_ascii_of_string_app in E.
  apply (f_equal (@rev ascii)) in E.
  rewrite !rev_app_distr in E.
  assert (Hname : rev (list_ascii_of_string (name a)) = rev (list_ascii_of_string (name b))
                  -> name a = name b).
  { intros Hrev. apply (f_equal (@rev ascii)) in Hrev.
    rewrite !rev_involutive in Hrev.
    apply (f_equal string_of_list_ascii) in Hrev.
    now rewrite !string_of_list_ascii_of_string in Hrev. }
  destruct (item_type a), (item_type b); simpl in E; try discriminate E.
  all: split; [apply Hname; injection E; auto | reflexivity].
Qed.

End PrintedForm.

Section FactoryObjects.

Context {W : Type} `{Number W}.
Implicit Types (inv : @Inventory W) (item : @Item W).

Lemma add_item_entries inv item quantity k v :
  In (k, v) (items (fst (add_item inv item quantity))) ->
  k = item \/ exists u, In (k, u) (items inv).
Proof.
  rewrite add_item_eq. destruct (gt _ _); simpl.
  - intros Hin. right. now exists v.
  - apply dict_set_entries.
Qed.

(** The identities of the starter items lie in [fresh, fresh + 3). *)
Lemma create_starter_inventory_fresh (fresh : positive) k v :
  In (k, v) (items (fst (create_starter_inventory fresh))) ->
  (fresh <= oid k < fresh + 3)%positive /\
  snd (create_starter_inventory fresh) = (fresh + 3)%positive.
Proof.
  unfold create_starter_inventory. simpl. intros Hin.
  split; [|reflexivity].
  apply add_item_entries in Hin. destruct Hin as [->|[u Hin]]; [simpl; lia|].
  apply add_item_entries in Hin. destruct Hin as [->|[u' Hin]]; [simpl; lia|].
  apply add_item_entries in Hin. destruct Hin as [->|[u'' []]]. simpl. lia.
Qed.

(** X19.  Two characters made by the factory one after the other share no
    item object: no starter item of the first is a key of the second's
    inventory, so handing one over always makes a new entry, never a merge
    with the namesake the second character already holds. *)
Theorem factory_characters_share_no_item
    (class1 name1 class2 name2 : string) (fresh fresh1 fresh2 : positive)
    (first second : @Character W) handed quantity :
  create_character class1 name1 fresh = (Some first, fresh1) ->
  create_character class2 name2 fresh1 = (Some second, fresh2) ->
  In (handed, quantity) (items (inventory first)) ->
  dict_get (items (inventory second)) handed = None /\
  (forall units, snd (add_item (inventory second) handed units) = true ->
                 items (fst (add_item (inventory second) handed units))
                 = items (inventory second) ++ [(handed, units)]).
Proof.
  unfold create_character. intros Hfirst Hsecond Hin.
  destruct (classes (lower class1)); [|discriminate].
  destruct (classes (lower class2)); [|discriminate].
  destruct (create_starter_inventory fresh) as [starter1 next1] eqn:E1.
  destruct (create_starter_inventory fresh1) as [starter2 next2] eqn:E2.
  injection Hfirst as <- <-. injection Hsecond as <- <-. simpl in *.
  assert (Hhanded : (fresh <= oid handed < fresh + 3)%positive /\ next1 = (fresh + 3)%positive).
  { pose proof (create_starter_inventory_fresh fresh handed quantity) as Hf.
    rewrite E1 in Hf. simpl in Hf. auto. }
  destruct Hhanded as [Hrange ->].
  assert (Hnone : dict_get (items starter2) handed = None).
  { apply dict_get_notin_none. intros Hkey.
    apply in_map_iff in Hkey. destruct Hkey as ([k v] & Hoid & Hk). simpl in Hoid.
    pose proof (create_starter_inventory_fresh (fresh + 3) k v) as Hf.
    rewrite E2 in Hf. simpl in Hf. destruct (Hf Hk) as [Hrange2 _]. lia. }
  split; [exact Hnone|].
  intros units Hok. rewrite add_item_eq in *.
  destruct (gt _ _); simpl in *; [discriminate|].
  unfold quantity_of. rewrite Hnone. now apply dict_set_absent.
Qed.

End FactoryObjects.

(** ** Lookup, potions without units, and what no action changes *)

Section Lifecycle.

Context {W : Type} `{Number W}.
Implicit Types (inv : @Inventory W) (character : @Character W) (item : @Item W)
  (d : @Dict W) (potion : @Potion W).

Lemma find_by_name_first d n :
  match find_by_name d n with
  | None => forall k v, In (k, v) d -> name k <> n
  | Some item =>
      exists before v after,
        d = before ++ (item, v) :: after /\ name item = n /\
        forall k u, In (k, u) before -> name k <> n
  end.
Proof.
  induction d as [|[k u] d IH]; simpl.
  - intros k v [].
  - destruct (String.eqb_spec (name k) n) as [E|E].
    + exists [], u, d. split; [reflexivity|]. split; [exact E|]. intros k' u' [].
    + destruct (find_by_name d n) as [item|].
      * destruct IH as (before & v & after & -> & Hname & Hbefore).
        exists ((k, u) :: before), v, after. repeat split; auto.
        intros k' u' [E'|Hin]; [injection E' as <- _; exact E | eauto].
      * intros k' v [E'|Hin]; [injection E' as <- _; exact E | eauto].
Qed.

(** X20.  [get_item_by_name] returns the first item, in insertion order,
    that bears the name: the item it returns is an entry of the inventory
    with that name and no entry before it has the name; it returns [None]
    only if no item of the inventory has the name. *)
Theorem get_item_by_name_first inv n :
  match get_item_by_name inv n with
  | None => forall k v, In (k, v) (items inv) -> name k <> n
  | Some item =>
      exists before v after,
        items inv = before ++ (item, v) :: after /\ name item = n /\
        forall k u, In (k, u) before -> name k <> n
  end.
Proof. apply find_by_name_first. Qed.

(** X21.  A potion that is a key of the inventory with no unit stored (a
    quantity below 1) can be used by name without end: [use_item] returns
    [True], applies the effect and leaves the inventory unchanged, because
    the removal of one unit fails and its failure is ignored. *)
Theorem use_item_potion_without_units character potion :
  get_item_by_name (inventory character) (name potion) = Some (APotion potion) ->
  quantity_of (inventory character) (APotion potion) < 1 ->
  let after := fst (use_item character (name potion)) in
  snd (use_item character (name potion)) = true /\
  inventory after = inventory character /\
  health after = (if String.eqb (effect potion) "heal"
                  then Z.min (max_health character) (health character + value potion)
                  else health character) /\
  get_item_by_name (inventory after) (name potion) = Some (APotion potion).
Proof.
  intros Hfound Hnone. cbv zeta. unfold use_item. rewrite Hfound. simpl.
  unfold Potion_use.
  assert (Hkept : forall c : @Character W,
             inventory c = inventory character ->
             fst (remove_item (inventory c) (APotion potion) 1) = inventory character).
  { intros c ->. unfold remove_item, quantity_of in *.
    destruct (dict_get (items (inventory character)) (APotion potion)) as [q|];
      [|reflexivity].
    destruct (Z.ltb_spec q 1); [reflexivity | lia]. }
  destruct (String.eqb (effect potion) "heal"); simpl;
    rewrite Hkept by reflexivity; auto.
Qed.

Lemma find_by_name_none d n :
  (forall k v, In (k, v) d -> name k <> n) -> find_by_name d n = None.
Proof.
  induction d as [|[k u] d IH]; simpl; intros Hnames; [reflexivity|].
  destruct (String.eqb_spec (name k) n) as [E|E].
  - exfalso. exact (Hnames k u (or_introl eq_refl) E).
  - apply IH. intros k' v Hin. apply (Hnames k' v). now right.
Qed.

Lemma find_by_name_del_only d item :
  dict_wf d -> In item (map fst d) ->
  (forall k v, In (k, v) d -> name k = name item -> k = item) ->
  find_by_name (dict_del d item) (name item) = None.
Proof.
  intros Hwf Hin Honly. apply find_by_name_none. intros k v Hk Hname.
  assert (Hk' : In (k, v) d).
  { destruct (keys_within_del d item k v Hk) as [u Hu].
    clear - Hk. induction d as [|[k' u'] d IH]; simpl in *; [contradiction|].
    destruct (same_object k' item); [now right|].
    destruct Hk as [E|Hk]; [now left | right; now apply IH]. }
  pose proof (Honly k v Hk' Hname) as ->.
  assert (Hnone : dict_get (dict_del d item) item = None) by now apply dict_get_del_same.
  apply dict_get_none_notin in Hnone. apply Hnone.
  apply in_map_iff. now exists (item, v).
Qed.

(** X22.  When a potion is the only item bearing its name and one unit of it
    is held, using it by name succeeds once: the second [use_item] on the
    name returns [False] and changes nothing. *)
Theorem last_potion_is_used_once character potion :
  dict_wf (items (inventory character)) ->
  get_item_by_name (inventory character) (name potion) = Some (APotion potion) ->
  dict_get (items (inventory character)) (APotion potion) = Some 1 ->
  (forall k v, In (k, v) (items (inventory character)) ->
               name k = name potion -> k = APotion potion) ->
  let after := fst (use_item character (name potion)) in
  snd (use_item character (name potion)) = true /\
  get_item_by_name (inventory after) (name potion) = None /\
  use_item after (name potion) = (after, false).
Proof.
  intros Hwf Hfound Hone Honly. cbv zeta.
  assert (Hgone : forall c : @Character W,
             inventory c = inventory character ->
             get_item_by_name (fst (remove_item (inventory c) (APotion potion) 1))
                              (name potion) = None).
  { intros c ->. rewrite (remove_item_held _ _ 1 1 Hone) by lia. simpl.
    unfold get_item_by_name. simpl.
    apply (find_by_name_del_only (items (inventory character)) (APotion potion));
      auto.
    exact (find_by_name_in _ _ _ Hfound). }
  assert (Hfirst : snd (use_item character (name potion)) = true
                   /\ get_item_by_name (inventory (fst (use_item character (name potion))))
                                       (name potion) = None).
  { unfold use_item. rewrite Hfound. simpl. unfold Potion_use.
    destruct (String.eqb (effect potion) "heal"); simpl;
      (split; [reflexivity | now apply Hgone]). }
  destruct Hfirst as [Hok Hnone]. split; [exact Hok|]. split; [exact Hnone|].
  unfold use_item at 1. now rewrite Hnone.
Qed.

(** One action keeps what no action changes. *)
Lemma act_keeps character (a : @action W) :
  dict_wf (items (inventory character)) ->
  health character <= max_health character ->
  match a with
  | craft recipe => NoDup (map fst (ingredients recipe))
  | _ => True
  end ->
  let after := act character a in
  level after = level character /\
  char_class after = char_class character /\
  char_name after = char_name character /\
  max_health after = max_health character /\
  max_weight (inventory after) = max_weight (inventory character) /\
  health after <= max_health after /\
  dict_wf (items (inventory after)).
Proof.
  intros Hwf Hhealth Hnames. cbv zeta.
  destruct a as [item quantity | n | recipe]; simpl.
  - rewrite pick_up_item_inventory. unfold pick_up_item.
    destruct (add_item (inventory character) item quantity) as [inv ok] eqn:E.
    simpl. replace inv with (fst (add_item (inventory character) item quantity))
      by now rewrite E.
    rewrite add_item_eq. destruct (gt _ _); simpl; repeat split; auto.
    now apply dict_wf_set.
  - unfold use_item.
    destruct (get_item_by_name (inventory character) n) as [[w|a|p|m]|]; simpl;
      try (repeat split; auto; fail).
    + unfold Weapon_use. destruct (can_equip_weapon character w); simpl;
        repeat split; auto.
    + unfold Potion_use. rewrite remove_item_max_weight_any.
      destruct (String.eqb (effect p) "heal"); simpl; repeat split; auto;
        try (now apply remove_item_wf); lia.
  - unfold craft_item.
    destruct (level character <? required_level recipe); [repeat split; auto|].
    rewrite check_ingredients_returns.
    destruct (forallb _ _) eqn:Havailable; [|repeat split; auto].
    destruct (consume_ingredients_returns _ _ Hwf Hnames Havailable)
      as (consumed & -> & Hwf' & Hmax & _).
    simpl. rewrite add_item_eq. destruct (gt _ _); simpl; repeat split; auto.
    now apply dict_wf_set.
Qed.

(** X23.  No action changes a character's level, class, name, maximal health
    or inventory capacity; the health stays at most the maximal health and
    the inventory stays a dictionary.  Since the level never rises, a recipe
    that requires more than the character's initial level is refused after
    every sequence of actions. *)
Theorem character_invariants character (actions : list (@action W)) :
  dict_wf (items (inventory character)) ->
  health character <= max_health character ->
  Forall (fun a => match a with
                   | craft recipe => NoDup (map fst (ingredients recipe))
                   | _ => True
                   end) actions ->
  let final := after_actions character actions in
  level final = level character /\
  char_class final = char_class character /\
  char_name final = char_name character /\
  max_health final = max_health character /\
  max_weight (inventory final) = max_weight (inventory character) /\
  health final <= max_health final /\
  dict_wf (items (inventory final)) /\
  (forall recipe, level character < required_level recipe ->
                  craft_item recipe final = Return (final, None)).
Proof.
  intros Hwf Hhealth Hnames. cbv zeta. unfold after_actions.
  assert (Hkeep : level (fold_left act actions character) = level character /\
                  char_class (fold_left act actions character) = char_class character /\
                  char_name (fold_left act actions character) = char_name character /\
                  max_health (fold_left act actions character) = max_health character /\
                  max_weight (inventory (fold_left act actions character))
                  = max_weight (inventory character) /\
                  health (fold_left act actions character)
                  <= max_health (fold_left act actions character) /\
                  dict_wf (items (inventory (fold_left act actions character)))).
  { revert character Hwf Hhealth.
    induction actions as [|a actions IH]; intros character Hwf Hhealth; simpl.
    - repeat split; auto.
    - inversion Hnames as [|? ? Ha Hrest]; subst.
      destruct (act_keeps character a Hwf Hhealth Ha)
        as (Hl & Hc & Hn & Hm & Hw & Hh & Hd).
      destruct (IH Hrest (act character a) Hd Hh)
        as (Hl' & Hc' & Hn' & Hm' & Hw' & Hh' & Hd').
      repeat split; auto; congruence. }
  destruct Hkeep as (Hl & Hc & Hn & Hm & Hw & Hh & Hd).
  repeat split; auto.
  intros recipe Hlow. unfold craft_item.
  rewrite Hl. apply Z.ltb_lt in Hlow. now rewrite Hlow.
Qed.

End Lifecycle.

(** * The scenarios, evaluated *)

Example recipes_of_the_program :
  nth_error (fst (initialize_recipes 1)) 0 = Some iron_sword_recipe /\
  nth_error (fst (initialize_recipes 1)) 1 = Some wooden_staff_recipe.
Proof. split; reflexivity. Qed.

Example smith_inventory :
  map (fun e : Item * Z => (name (fst e), snd e)) (items (inventory smith))
  = [("Water", 2); ("Bread", 3); ("Gold Coins", 50); ("Iron Ore", 2); ("Wood", 3)].
Proof. vm_compute. reflexivity. Qed.

(** C1, witness: the Iron Sword needs three Iron Ore and [smith] holds two. *)
Lemma craft_iron_sword_short_of_ore :
  craft_item iron_sword_recipe smith = Return (smith, None).
Proof.
  apply craft_item_failure_changes_nothing.
  right. exists "Iron Ore", 3. split.
  - left. reflexivity.
  - vm_compute. reflexivity.
Defined.

(** C2.  When every check passes, [craft_item] is to remove the ingredients,
    add one unit of the result and return it; but it ignores the outcome of
    its final [add_item].  Here every check passes (level 1 of 1, two Wood and
    one Crystal held), the ingredients are consumed and the Wooden Staff is
    returned, yet it is not added: 78.0 + 3.0 exceeds 80.0, so the anvil is
    all that is left. *)
Theorem craft_item_drops_result_when_overweight :
  items (inventory loaded_smith) = [(anvil, 1); (light_wood, 2); (crystal, 1)] /\
  required_level wooden_staff_recipe <= level loaded_smith /\
  forallb (ingredient_available (inventory loaded_smith))
          (ingredients wooden_staff_recipe) = true /\
  (exists after,
      craft_item wooden_staff_recipe loaded_smith = Return (after, Some wooden_staff) /\
      items (inventory after) = [(anvil, 1)] /\
      quantity_of (inventory after) wooden_staff = 0 /\
      add_item (inventory after) wooden_staff 1 = (inventory after, false)).
Proof.
  split; [vm_compute; reflexivity|].
  split; [vm_compute; discriminate|].
  split; [vm_compute; reflexivity|].
  eexists. split; [vm_compute; reflexivity|].
  repeat split; vm_compute; reflexivity.
Qed.


Example demonstration_craft_adds_sword :
  exists after,
    craft_item iron_sword_recipe rich_smith
    = Return (after, Some (result iron_sword_recipe)) /\
    map (fun e : Item * Z => (name (fst e), snd e)) (items (inventory after))
    = [("Water", 2); ("Bread", 3); ("Gold Coins", 50); ("Iron Ore", 2);
       ("Wood", 2); ("Iron Sword", 1)].
Proof. eexists. split; vm_compute; reflexivity. Qed.

(** ** Weight cap *)

Lemma known_one_crate : known (items (one_crate (W := Q))) crate.
Proof.
  intros k v Hin _. simpl in Hin. destruct Hin as [E|[]]. now injection E.
Defined.

(** C3, witness: the second crate would bring the weight to 12 of 10, so
    [add_item] fails and the inventory keeps its one crate; taking the crate
    out again succeeds and leaves the weight within the cap. *)
Lemma second_crate_is_refused :
  snd (add_item (one_crate (W := Q)) crate 1) = false /\
  fst (add_item (one_crate (W := Q)) crate 1) = one_crate /\
  (calculate_weight (items (fst (remove_item (one_crate (W := Q)) crate 1)))
   <= max_weight (fst (remove_item (one_crate (W := Q)) crate 1)))%Q.
Proof.
  assert (Hcap : (calculate_weight (items (one_crate (W := Q))) <= max_weight one_crate)%Q)
    by (vm_compute; discriminate).
  destruct (weight_cap_kept_exactly one_crate crate 1 known_one_crate Hcap)
    as (_ & _ & Hfail & Hremove).
  assert (Hrefused : snd (add_item (one_crate (W := Q)) crate 1) = false)
    by reflexivity.
  split; [exact Hrefused|]. split; [exact (Hfail Hrefused)|].
  apply Hremove; [reflexivity | lia | vm_compute; discriminate].
Defined.

(** C3, counterexample: [remove_item] with quantity [-1] succeeds, since the
    one crate held is not fewer than [-1], and stores [1 - (-1) = 2] crates:
    the weight goes from 6 to 12, above the cap of 10.  Both arithmetics
    agree. *)
Lemma remove_item_negative_quantity_breaks_cap :
  (items (one_crate (W := float)) = [(crate, 1)] /\
   gt (calculate_weight (items (one_crate (W := float)))) (max_weight one_crate) = false /\
   snd (remove_item (one_crate (W := float)) crate (-1)) = true /\
   items (fst (remove_item (one_crate (W := float)) crate (-1))) = [(crate, 2)] /\
   gt (calculate_weight (items (fst (remove_item (one_crate (W := float)) crate (-1)))))
      (max_weight (fst (remove_item (one_crate (W := float)) crate (-1)))) = true) /\
  (items (one_crate (W := Q)) = [(crate, 1)] /\
   gt (calculate_weight (items (one_crate (W := Q)))) (max_weight one_crate) = false /\
   snd (remove_item (one_crate (W := Q)) crate (-1)) = true /\
   items (fst (remove_item (one_crate (W := Q)) crate (-1))) = [(crate, 2)] /\
   gt (calculate_weight (items (fst (remove_item (one_crate (W := Q)) crate (-1)))))
      (max_weight (fst (remove_item (one_crate (W := Q)) crate (-1)))) = true).
Proof. repeat split; vm_compute; reflexivity. Qed.

(** The scenario of the specification, in binary64: the first crate is
    accepted (weight 6.0), the second is refused and the weight stays 6.0. *)
Example crate_scenario :
  add_item (new_inventory (lit (10 # 1))) crate 1 = (one_crate (W := float), true) /\
  add_item (one_crate (W := float)) crate 1 = (one_crate, false) /\
  calculate_weight (items (one_crate (W := float))) = lit (6 # 1).
Proof. repeat split; vm_compute; reflexivity. Qed.

(** Outside exact arithmetic the cap can be exceeded by rounding.  The
    feather and the boulder go into an inventory that may weigh 1e16: the sum
    1.0 + 1e16 rounds to 1e16, and so does the weight [add_item] computes for
    a second feather, 1e16 + 1.0, which is accepted; the inventory then
    weighs 2.0 + 1e16, above the cap. *)
Example binary64_rounding_exceeds_cap :
  let inv0 := new_inventory (lit (10000000000000000 # 1)) in
  let inv1 := fst (add_item inv0 feather 1) in
  let inv2 := fst (add_item inv1 boulder 1) in
  snd (add_item inv0 feather 1) = true /\
  snd (add_item inv1 boulder 1) = true /\
  gt (calculate_weight (items inv2)) (max_weight inv2) = false /\
  snd (add_item inv2 feather 1) = true /\
  items (fst (add_item inv2 feather 1)) = [(feather, 2); (boulder, 1)] /\
  gt (calculate_weight (items (fst (add_item inv2 feather 1))))
     (max_weight (fst (add_item inv2 feather 1))) = true.
Proof. repeat split; vm_compute; reflexivity. Qed.

(** ** Potions *)

Lemma wounded_warrior_items :
  items (inventory wounded_warrior)
  = [(APotion strong_potion, 3); (APotion mana_potion, 1)].
Proof. vm_compute. reflexivity. Qed.

Lemma wounded_warrior_wf : dict_wf (items (inventory wounded_warrior)).
Proof. rewrite wounded_warrior_items. wf_entries. Defined.

(** C4, witness: 100 + 80 is capped at 150 and two of the three potions are
    left. *)
Lemma wounded_warrior_heals :
  let after := fst (use (APotion strong_potion) wounded_warrior) in
  health after = 150 /\
  quantity_of (inventory after) (APotion strong_potion) = 2 /\
  dict_get (items (inventory after)) (APotion mana_potion) = Some 1.
Proof.
  destruct (heal_potion_use wounded_warrior strong_potion 3)
    as (Hhealth & _ & Hqty & _ & Hother);
    [reflexivity | exact wounded_warrior_wf | reflexivity | lia |].
  cbv zeta. split; [exact Hhealth|]. split; [exact Hqty|].
  rewrite Hother; reflexivity.
Defined.

(** C10, witness: the mana potion is the last of its kind; using it returns
    [True], deletes its entry and leaves the health at 100. *)
Lemma wounded_warrior_drinks_mana :
  let after := fst (use (APotion mana_potion) wounded_warrior) in
  snd (use (APotion mana_potion) wounded_warrior) = true /\
  health after = 100 /\
  quantity_of (inventory after) (APotion mana_potion) = 0 /\
  dict_get (items (inventory after)) (APotion mana_potion) = None /\
  dict_get (items (inventory after)) (APotion strong_potion) = Some 3.
Proof.
  destruct (other_potion_use wounded_warrior mana_potion 1)
    as (Hret & Hhealth & Hqty & Hgone & Hother);
    [discriminate | exact wounded_warrior_wf | reflexivity | lia |].
  cbv zeta. split; [exact Hret|]. split; [exact Hhealth|].
  split; [exact Hqty|]. split; [exact (Hgone eq_refl)|].
  rewrite Hother; reflexivity.
Defined.

(** ** Quantities *)

(** C5, witness: four calls with positive quantities; the last one removes
    the four pebbles left and with them the entry. *)
Lemma pebbles_counted :
  Forall (fun entry : Item * Z => 1 <= snd entry)
         (items (after_calls (lit (10 # 1))
                   [add_call pebble 2; remove_call pebble 1;
                    add_call pebble 3; remove_call pebble 4])).
Proof.
  apply quantities_at_least_one.
  repeat constructor; lia.
Defined.

(** C5, counterexample: [add_item(pebble, 0)] on the empty inventory passes
    the weight test (0 + 1.0 * 0 is not above 10.0) and, the pebble not being
    a key yet, stores it with quantity 0. *)
Lemma add_item_zero_stores_empty_entry :
  add_item (new_inventory (lit (10 # 1))) pebble 0
  = ({| max_weight := lit (10 # 1); items := [(pebble, 0)] |}, true) /\
  items (after_calls (lit (10 # 1)) [add_call pebble 0]) = [(pebble, 0)].
Proof. split; vm_compute; reflexivity. Qed.

(** C6, witness: three pebbles added to two and taken away again. *)
Lemma pebbles_round_trip :
  remove_item (fst (add_item two_pebbles pebble 3)) pebble 3 = (two_pebbles, true).
Proof.
  apply (add_then_remove_restores two_pebbles pebble 3
           (fst (add_item two_pebbles pebble 3))).
  - vm_compute. discriminate.
  - vm_compute. reflexivity.
Defined.

(** C6, counterexample: [add_item(pebble, -2)] on the empty inventory
    succeeds and stores quantity [-2].  From that state [add_item(pebble, 1)]
    succeeds, storing [-1], and the following [remove_item(pebble, 1)] fails
    because [-1 < 1]. *)
Lemma remove_after_add_fails_on_negative_entry :
  add_item (new_inventory (lit (10 # 1))) pebble (-2) = (pebble_debt (-2), true) /\
  add_item (pebble_debt (-2)) pebble 1 = (pebble_debt (-1), true) /\
  remove_item (pebble_debt (-1)) pebble 1 = (pebble_debt (-1), false).
Proof. repeat split; vm_compute; reflexivity. Qed.

(** ** Equipping by name *)

(** C8, witness: the archer equips the bow; the sword is refused and
    nothing changes. *)
Lemma archer_equips_bow_not_sword :
  (exists after,
      use_item archer "Longbow" = (after, true) /\
      weapon_slot (equipment after) = Some (AWeapon longbow) /\
      armor_slot (equipment after) = armor_slot (equipment archer) /\
      inventory after = inventory archer /\
      health after = health archer) /\
  use_item archer "Steel Sword" = (archer, false).
Proof.
  split.
  - apply (use_item_weapon archer longbow); reflexivity.
  - apply (use_item_weapon archer steel_sword); reflexivity.
Defined.

(** C8, counterexample: a warrior holds two weapons named "Blade", a sword
    picked up first and a bow picked up second.  The bow is in the inventory
    and its class is not allowed for a warrior, yet [use_item("Blade")]
    returns [True] and fills the weapon slot: the name finds the sword. *)
Lemma use_item_finds_namesake :
  items (inventory blade_collector) = [(AWeapon blade_sword, 1); (AWeapon blade_bow, 1)] /\
  can_equip_weapon blade_collector blade_bow = false /\
  weapon_slot (equipment blade_collector) = None /\
  snd (use_item blade_collector (name blade_bow)) = true /\
  weapon_slot (equipment (fst (use_item blade_collector (name blade_bow))))
  = Some (AWeapon blade_sword).
Proof. repeat split; vm_compute; reflexivity. Qed.

(** ** The factory *)

(** C9, counterexample: the class string is lower-cased before the lookup,
    so ["Warrior"], which is none of the three keys, yields a warrior. *)
Lemma create_character_ignores_case :
  exists character,
    fst (create_character (W := float) "Warrior" "Aragorn" 1) = Some character /\
    char_class character = Warrior /\
    max_weight (inventory character) = lit (50 # 1).
Proof. eexists. repeat split; vm_compute; reflexivity. Qed.

Example create_character_examples :
  (exists c, fst (create_character (W := float) "mage" "Gandalf" 1) = Some c
             /\ char_class c = Mage /\ health c = 80) /\
  (exists c, fst (create_character (W := float) "ARCHER" "Legolas" 1) = Some c
             /\ char_class c = Archer /\ health c = 100) /\
  fst (create_character (W := float) "paladin" "Roland" 1) = None /\
  fst (create_character (W := float) "" "Nobody" 1) = None.
Proof.
  split; [eexists; repeat split; vm_compute; reflexivity|].
  split; [eexists; repeat split; vm_compute; reflexivity|].
  split; vm_compute; reflexivity.
Qed.

(** ** The further properties, evaluated *)

(** X3, witness: two of the three strong potions are taken out; taking four
    fails and changes nothing. *)
Lemma two_potions_taken_out :
  let inv := inventory wounded_warrior in
  snd (remove_item inv (APotion strong_potion) 2) = true /\
  quantity_of (fst (remove_item inv (APotion strong_potion) 2)) (APotion strong_potion) = 1 /\
  quantity_of (fst (remove_item inv (APotion strong_potion) 2)) (APotion mana_potion) = 1 /\
  remove_item inv (APotion strong_potion) 4 = (inv, false).
Proof.
  cbv zeta.
  destruct (remove_item_effect (inventory wounded_warrior) (APotion strong_potion) 2
              wounded_warrior_wf) as (Hiff & _ & Hok).
  assert (Hsuccess : snd (remove_item (inventory wounded_warrior) (APotion strong_potion) 2) = true).
  { apply Hiff. exists 3. split; [reflexivity | lia]. }
  destruct (Hok Hsuccess) as (_ & Hquantities & _).
  split; [exact Hsuccess|]. rewrite !Hquantities.
  repeat split; vm_compute; reflexivity.
Defined.

(** X5, witness: a second object named "Pebble" is added; the name still
    finds the first. *)
Lemma pebble_twin_is_not_found :
  items (fst (add_item two_pebbles pebble_twin 1)) = [(pebble, 2); (pebble_twin, 1)] /\
  get_item_by_name (fst (add_item two_pebbles pebble_twin 1)) "Pebble" = Some pebble.
Proof.
  split; [vm_compute; reflexivity|].
  rewrite (lookup_after_add_item two_pebbles pebble_twin 1 "Pebble"); reflexivity.
Defined.

(** X7, witness: the archer of the demonstration puts on the bow and the
    chain mail, in either order. *)
Lemma archer_fully_equipped :
  let equipped :=
    with_equipment armed_archer
      {| weapon_slot := Some (AWeapon longbow); armor_slot := Some (AnArmor chain_mail) |} in
  use_item (fst (use_item armed_archer "Longbow")) "Chain Mail" = (equipped, true) /\
  use_item (fst (use_item armed_archer "Chain Mail")) "Longbow" = (equipped, true) /\
  items (inventory equipped) = [(AWeapon longbow, 1); (AnArmor chain_mail, 1)].
Proof.
  cbv zeta.
  destruct (equip_weapon_and_armor armed_archer longbow chain_mail)
    as (Hfirst & Hsecond & _ & _ & Hinv); [reflexivity | reflexivity | reflexivity |].
  split; [exact Hfirst|]. split; [exact Hsecond|].
  rewrite Hinv. vm_compute. reflexivity.
Defined.

Lemma miner_wf {W : Type} `{Number W} :
  dict_wf (items (inventory (miner (W := W)))).
Proof.
  unfold miner. rewrite !pick_up_item_inventory.
  do 2 apply add_item_wf. constructor.
Defined.

Lemma sword_recipe_names {W : Type} `{Number W} :
  NoDup (map fst (ingredients (sword_recipe (W := W)))).
Proof. simpl. repeat (constructor; [simpl; intuition discriminate|]). constructor. Defined.


(** X9, witness: of the three registered recipes, two are available at level
    1 and all three at level 2. *)
Lemma recipes_by_level :
  map recipe_name (available_recipes (fst (initialize_recipes (W := float) 1)) 1)
  = ["Iron Sword"; "Wooden Staff"] /\
  map recipe_name (available_recipes (fst (initialize_recipes (W := float) 1)) 2)
  = ["Iron Sword"; "Wooden Staff"; "Leather Armor"] /\
  available_recipes (available_recipes (fst (initialize_recipes (W := float) 1)) 2) 1
  = available_recipes (fst (initialize_recipes 1)) 1.
Proof.
  destruct (available_recipes_by_level (fst (initialize_recipes (W := float) 1)) 1 2)
    as (_ & _ & Hfilter & _); [lia|].
  split; [reflexivity|]. split; [reflexivity | exact Hfilter].
Defined.


(** X12, witness: the Iron Sword took three Iron Ore and gives back two. *)
Lemma iron_sword_gives_back_less :
  exists consumed,
    In ("Iron Ore", consumed) (ingredients iron_sword_recipe) /\ 2 <= consumed.
Proof.
  apply (dismantle_crafted_item 1 iron_sword_recipe "Iron Ore" 2).
  - left. reflexivity.
  - left. reflexivity.
Defined.

(** X13, witness: a crate and two barrels weigh 9 in either order. *)
Lemma crate_and_barrels :
  (calculate_weight [(crate (W := Q), 1%Z); (barrel, 2%Z)]
   == calculate_weight [(barrel (W := Q), 2%Z); (crate, 1%Z)])%Q /\
  (calculate_weight [(crate (W := Q), 1%Z); (barrel, 2%Z)] == 9)%Q.
Proof.
  split; [|vm_compute; reflexivity].
  apply (calculate_weight_any_order [(crate (W := Q), 1%Z); (barrel, 2%Z)]).
  apply perm_swap.
Defined.

(** In binary64 the order of the entries can matter: a boulder and two
    feathers weigh 1e16 or 1e16 + 2, by the order of summation. *)
Example binary64_weight_depends_on_order :
  calculate_weight [(boulder, 1); (feather, 1); (pebble, 1)] = lit (10000000000000000 # 1) /\
  calculate_weight [(feather, 1); (pebble, 1); (boulder, 1)] = lit (10000000000000002 # 1).
Proof. split; vm_compute; reflexivity. Qed.

Lemma one_crate_wf : dict_wf (items (one_crate (W := Q))).
Proof. wf_entries. Defined.

(** X14, witness: the only crate is taken out and put back. *)
Lemma crate_out_and_in :
  snd (remove_item (one_crate (W := Q)) crate 1) = true /\
  add_item (fst (remove_item (one_crate (W := Q)) crate 1)) crate 1 = (one_crate, true).
Proof.
  assert (Hcap : (calculate_weight (items (one_crate (W := Q))) <= max_weight one_crate)%Q)
    by (vm_compute; discriminate).
  assert (Hle : 1 <= 1) by lia.
  exact (remove_then_add_restores one_crate crate 1 1
           one_crate_wf known_one_crate Hcap eq_refl Hle).
Defined.

(** X15, witness: a crate goes in, a second one is refused, the crate comes
    out and two barrels go in: the weight ends at 3 of 10. *)
Lemma crates_and_barrels_within_cap :
  (calculate_weight
     (items (after_calls (10 # 1)
               [add_call (crate (W := Q)) 1; add_call crate 1;
                remove_call crate 1; add_call barrel 2]))
   <= 10)%Q.
Proof.
  destruct (weight_cap_in_every_state (10 # 1)
              [add_call (crate (W := Q)) 1; add_call crate 1;
               remove_call crate 1; add_call barrel 2]) as [Hcap Hmax].
  - vm_compute. discriminate.
  - intros a b Ha Hb Hsame. simpl in Ha, Hb.
    repeat (destruct Ha as [<-|Ha]; [|]); try contradiction;
      repeat (destruct Hb as [<-|Hb]; [|]); try contradiction;
      try reflexivity; discriminate Hsame.
  - repeat constructor; try lia; vm_compute; discriminate.
  - rewrite Hmax in Hcap. exact Hcap.
Defined.

Lemma miner_result_known :
  known (items (inventory (miner (W := Q)))) (result sword_recipe).
Proof.
  intros k v Hin Hsame. simpl in Hin.
  destruct Hin as [E|[E|[]]]; injection E as <- _; discriminate Hsame.
Defined.

(** X16, witness: the miner, in exact arithmetic, crafts the Iron Sword and
    stays within the capacity of 80. *)
Lemma miner_stays_within_cap :
  exists after made,
    craft_item sword_recipe (miner (W := Q)) = Return (after, made) /\
    (calculate_weight (items (inventory after)) <= 80)%Q.
Proof.
  destruct (craft_item_keeps_weight_cap sword_recipe (miner (W := Q)))
    as (after & made & Hcraft & Hcap & Hmax).
  - exact miner_wf.
  - exact sword_recipe_names.
  - exact miner_result_known.
  - intros k v Hin. simpl in Hin.
    destruct Hin as [E|[E|[]]]; injection E as <- _; vm_compute; discriminate.
  - repeat constructor; simpl; lia.
  - vm_compute. discriminate.
  - exists after, made. split; [exact Hcraft|]. rewrite Hmax in Hcap. exact Hcap.
Defined.

(** X19, witness: the mage made second does not hold the warrior's Water,
    although it holds a Water of its own; handed over, it becomes a fourth
    entry. *)
Lemma handed_water_is_a_new_entry :
  dict_get (items (inventory second_made)) first_water = None /\
  map (fun e : Item * Z => (name (fst e), snd e))
      (items (fst (add_item (inventory second_made) first_water 1)))
  = [("Water", 2); ("Bread", 3); ("Gold Coins", 50); ("Water", 1)].
Proof.
  destruct (factory_characters_share_no_item
              "warrior" "Aragorn" "mage" "Gandalf" 4 7 10 first_made second_made
              first_water 2) as [Hnone Hadd].
  - vm_compute. reflexivity.
  - vm_compute. reflexivity.
  - left. vm_compute. reflexivity.
  - split; [exact Hnone|]. rewrite Hadd; vm_compute; reflexivity.
Defined.

Example printed_forms :
  repr (AWeapon longbow) = "Longbow (weapon)" /\
  repr (APotion strong_potion) = "Strong Potion (consumable)" /\
  repr (AnArmor chain_mail) = "Chain Mail (armor)" /\
  repr pebble = "Pebble (material)".
Proof. repeat split; reflexivity. Qed.

Example bonuses :
  get_item_bonus armed_archer (AnArmor chain_mail) = lit (1 # 1) /\
  get_item_bonus armed_archer (AWeapon longbow) = lit (1 # 1) /\
  get_item_bonus wounded_warrior (AWeapon longbow) = lit (12 # 10) /\
  get_item_bonus second_made (APotion strong_potion) = lit (15 # 10).
Proof. repeat split; vm_compute; reflexivity. Qed.

Example dismantle_examples :
  dismantle_item (AWeapon steel_sword) = [("Iron Ore", 2); ("Wood", 1)] /\
  dismantle_item (AWeapon longbow) = [] /\
  dismantle_item (AnArmor chain_mail) = [("Leather", 2); ("Thread", 1)] /\
  dismantle_item (APotion strong_potion) = [] /\
  dismantle_item wooden_staff = [("Wood", 2)].
Proof. repeat split; reflexivity. Qed.

(** X21, witness: the mage holds a flask with quantity 0; using it twice
    heals twice (50, 60, 70) and the flask is still there. *)
Lemma flask_never_runs_out :
  let once := fst (use_item flask_owner "Flask") in
  let twice := fst (use_item once "Flask") in
  items (inventory flask_owner) = [(APotion flask, 0)] /\
  snd (use_item flask_owner "Flask") = true /\
  health once = 60 /\
  snd (use_item once "Flask") = true /\
  health twice = 70 /\
  inventory twice = inventory flask_owner.
Proof.
  cbv zeta.
  destruct (use_item_potion_without_units flask_owner flask)
    as (Hok & Hinv & Hhealth & Hfound); [reflexivity | vm_compute; reflexivity |].
  change (name flask) with "Flask" in *.
  destruct (use_item_potion_without_units (fst (use_item flask_owner "Flask")) flask)
    as (Hok' & Hinv' & Hhealth' & _);
    [exact Hfound | rewrite Hinv; vm_compute; reflexivity |].
  change (name flask) with "Flask" in *.
  split; [vm_compute; reflexivity|]. split; [exact Hok|].
  split; [rewrite Hhealth; vm_compute; reflexivity|]. split; [exact Hok'|].
  split; [rewrite Hhealth', Hhealth; vm_compute; reflexivity|].
  now rewrite Hinv', Hinv.
Defined.

(** X22, witness: the wounded warrior drinks the only mana potion; a second
    attempt fails. *)
Lemma mana_potion_is_used_once :
  let after := fst (use_item wounded_warrior "Mana Potion") in
  snd (use_item wounded_warrior "Mana Potion") = true /\
  use_item after "Mana Potion" = (after, false).
Proof.
  cbv zeta.
  destruct (last_potion_is_used_once wounded_warrior mana_potion)
    as (Hok & _ & Hagain).
  - exact wounded_warrior_wf.
  - reflexivity.
  - reflexivity.
  - intros k v Hin Hname. rewrite wounded_warrior_items in Hin.
    destruct Hin as [E|[E|[]]]; injection E as <- _; [discriminate Hname | reflexivity].
  - split; [exact Hok | exact Hagain].
Defined.

Lemma first_made_wf : dict_wf (items (inventory first_made)).
Proof. unfold dict_wf. vm_compute. repeat (constructor; [simpl; intuition discriminate|]). constructor. Defined.

(** X23, witness: the first character of the demonstration picks up ore and
    wood, drinks a Water and crafts the Iron Sword; it is still at level 1
    and the Leather Armor, which requires level 2, is refused. *)
Lemma leather_armor_stays_out_of_reach :
  let final :=
    after_actions first_made
      [pick_up iron_ore 5; pick_up wood 3; use_named "Water"; craft iron_sword_recipe] in
  level final = 1 /\
  health final <= max_health final /\
  craft_item leather_armor_recipe final = Return (final, None).
Proof.
  cbv zeta.
  destruct (character_invariants first_made
              [pick_up iron_ore 5; pick_up wood 3; use_named "Water"; craft iron_sword_recipe])
    as (Hlevel & _ & _ & _ & _ & Hhealth & _ & Hrefused).
  - exact first_made_wf.
  - vm_compute. discriminate.
  - repeat constructor; simpl; intuition discriminate.
  - split; [rewrite Hlevel; reflexivity|]. split; [exact Hhealth|].
    apply Hrefused. vm_compute. reflexivity.
Defined.

Example first_made_after_the_actions :
  let final :=
    after_actions first_made
      [pick_up iron_ore 5; pick_up wood 3; use_named "Water"; craft iron_sword_recipe] in
  map (fun e : Item * Z => (name (fst e), snd e)) (items (inventory final))
  = [("Water", 1); ("Bread", 3); ("Gold Coins", 50); ("Iron Ore", 2); ("Wood", 2);
     ("Iron Sword", 1)] /\
  health final = 150.
Proof. split; vm_compute; reflexivity. Qed.

(** X18, witness: the two pebbles are different objects that print alike;
    they have one name and one type. *)
Lemma pebbles_print_alike :
  name pebble = name pebble_twin /\ item_type pebble = item_type pebble_twin.
Proof. apply (repr_tells_name_and_type pebble pebble_twin). reflexivity. Defined.
